(** * NFTPortfolioFHE: a shallow embedding of contracts/NFT_Portfolio_Fhe.sol

    The contract keeps encrypted (value, weight) entries in batches, lets the
    owner open and close batches, lets any caller request the decryption of a
    closed batch's weighted sum, and finalises a request in [myCallback].

    Storage mappings are finite maps read with the Solidity default value,
    uint256 values are integers with the checked arithmetic of Solidity 0.8
    written out, and every external function is a computation in a small
    state-and-revert monad. *)

From Stdlib Require Import ZArith Lia.
From Stdlib Require Import Strings.Byte.
From stdpp Require Import base option list gmap.

Local Open Scope Z_scope.

(** ** Value types *)

Abbreviation address := Z (only parsing).
Abbreviation uint256 := Z (only parsing).
Abbreviation bytes32 := Z (only parsing).
Abbreviation bytes := (list byte) (only parsing).

Definition MAX_UINT256 : Z := 2 ^ 256 - 1.

(** The custom errors of the contract, and the two reverts the compiler
    inserts: [Panic] (0x11 arithmetic overflow, 0x32 array index out of
    bounds) and the data-less revert of a failed [abi.decode]. *)
Inductive error : Type :=
| NotOwner
| NotProvider
| PausedError
| CooldownActive
| InvalidBatch
| ReplayAttempt
| StateMismatch
| InvalidProof
| BatchNotClosed
| FHENotInitialized
| Panic (code : Z)
| AbiDecodeError.

Inductive result (A : Type) : Type :=
| Ok (a : A)
| Revert (e : error).
Arguments Ok {A} a.
Arguments Revert {A} e.

(** ** The imported FHE library and the deployment

    [FHE.sol] and the decryption oracle are imported, not part of the
    contract; they are taken as an interface, each call a function of its
    arguments.  [keccak256_abi_encode cts a] stands for
    [keccak256(abi.encode(cts, a))] and [this] for [address(this)]. *)
Class Platform : Type := {
  euint32 : Type;
  FHE_asEuint32 : Z -> euint32;
  FHE_add : euint32 -> euint32 -> euint32;
  FHE_mul : euint32 -> euint32 -> euint32;
  FHE_toBytes32 : euint32 -> bytes32;
  FHE_isInitialized : euint32 -> bool;
  FHE_checkSignatures : uint256 -> bytes -> bytes -> bool;
  keccak256_abi_encode : list bytes32 -> address -> bytes32;
  this : address
}.

(** What a transaction brings from outside the contract: the caller, the
    block time, and the request id that [FHE.requestDecryption] hands out
    when the transaction calls it. *)
Record Env : Type := mkEnv {
  msg_sender : address;
  block_timestamp : uint256;
  oracle_requestId : uint256
}.

Record DecryptionContext : Type := mkDecryptionContext {
  batchId : uint256;
  stateHash : bytes32;
  processed : bool
}.

Definition set_processed (v : bool) (c : DecryptionContext) : DecryptionContext :=
  mkDecryptionContext (batchId c) (stateHash c) v.

Inductive Event : Type :=
| OwnershipTransferred (previousOwner newOwner : address)
| ProviderAdded (provider : address)
| ProviderRemoved (provider : address)
| Paused (account : address)
| Unpaused (account : address)
| CooldownSecondsSet (oldCooldownSeconds newCooldownSeconds : uint256)
| BatchOpened (batch : uint256)
| BatchClosed (batch : uint256)
| NFTSubmitted (provider : address) (batch : uint256) (indexInBatch : uint256)
| PortfolioValuationRequested (requestId : uint256) (batch : uint256) (hash : bytes32)
| PortfolioValuationCompleted (requestId : uint256) (batch : uint256) (totalValue : uint256).

(** [abi.decode(cleartexts, (uint256))]: the first 32 bytes, big endian;
    it reverts on fewer than 32 bytes. *)
Definition be_uint (bs : list byte) : Z :=
  fold_left (fun acc b => acc * 256 + Z.of_N (Byte.to_N b)) bs 0.

Definition abi_decode_uint256 (cleartexts : bytes) : result uint256 :=
  if (length cleartexts <? 32)%nat then Revert AbiDecodeError
  else Ok (be_uint (take 32 cleartexts)).

Section Contract.
Context `{P : Platform}.

Record EncryptedNFT : Type := mkEncryptedNFT {
  encryptedValue : euint32;
  encryptedWeight : euint32
}.

(** ** Storage

    One field per state variable, in declaration order; [events] is the log
    of emitted events, oldest first. *)
Record Storage : Type := mkStorage {
  owner : address;
  isProvider : gmap Z bool;
  paused : bool;
  cooldownSeconds : uint256;
  lastSubmissionTime : gmap Z Z;
  lastDecryptionRequestTime : gmap Z Z;
  currentBatchId : uint256;
  isBatchClosed : gmap Z bool;
  portfolioEntries : gmap Z (list EncryptedNFT);
  decryptionContexts : gmap Z DecryptionContext;
  events : list Event
}.

Definition set_owner (v : address) (s : Storage) : Storage :=
  mkStorage v (isProvider s) (paused s) (cooldownSeconds s)
    (lastSubmissionTime s) (lastDecryptionRequestTime s) (currentBatchId s)
    (isBatchClosed s) (portfolioEntries s) (decryptionContexts s) (events s).

Definition set_isProvider (v : gmap Z bool) (s : Storage) : Storage :=
  mkStorage (owner s) v (paused s) (cooldownSeconds s)
    (lastSubmissionTime s) (lastDecryptionRequestTime s) (currentBatchId s)
    (isBatchClosed s) (portfolioEntries s) (decryptionContexts s) (events s).

Definition set_paused (v : bool) (s : Storage) : Storage :=
  mkStorage (owner s) (isProvider s) v (cooldownSeconds s)
    (lastSubmissionTime s) (lastDecryptionRequestTime s) (currentBatchId s)
    (isBatchClosed s) (portfolioEntries s) (decryptionContexts s) (events s).

Definition set_cooldownSeconds (v : uint256) (s : Storage) : Storage :=
  mkStorage (owner s) (isProvider s) (paused s) v
    (lastSubmissionTime s) (lastDecryptionRequestTime s) (currentBatchId s)
    (isBatchClosed s) (portfolioEntries s) (decryptionContexts s) (events s).

Definition set_lastSubmissionTime (v : gmap Z Z) (s : Storage) : Storage :=
  mkStorage (owner s) (isProvider s) (paused s) (cooldownSeconds s)
    v (lastDecryptionRequestTime s) (currentBatchId s)
    (isBatchClosed s) (portfolioEntries s) (decryptionContexts s) (events s).

Definition set_lastDecryptionRequestTime (v : gmap Z Z) (s : Storage) : Storage :=
  mkStorage (owner s) (isProvider s) (paused s) (cooldownSeconds s)
    (lastSubmissionTime s) v (currentBatchId s)
    (isBatchClosed s) (portfolioEntries s) (decryptionContexts s) (events s).

Definition set_currentBatchId (v : uint256) (s : Storage) : Storage :=
  mkStorage (owner s) (isProvider s) (paused s) (cooldownSeconds s)
    (lastSubmissionTime s) (lastDecryptionRequestTime s) v
    (isBatchClosed s) (portfolioEntries s) (decryptionContexts s) (events s).

Definition set_isBatchClosed (v : gmap Z bool) (s : Storage) : Storage :=
  mkStorage (owner s) (isProvider s) (paused s) (cooldownSeconds s)
    (lastSubmissionTime s) (lastDecryptionRequestTime s) (currentBatchId s)
    v (portfolioEntries s) (decryptionContexts s) (events s).

Definition set_portfolioEntries (v : gmap Z (list EncryptedNFT)) (s : Storage) : Storage :=
  mkStorage (owner s) (isProvider s) (paused s) (cooldownSeconds s)
    (lastSubmissionTime s) (lastDecryptionRequestTime s) (currentBatchId s)
    (isBatchClosed s) v (decryptionContexts s) (events s).

Definition set_decryptionContexts (v : gmap Z DecryptionContext) (s : Storage) : Storage :=
  mkStorage (owner s) (isProvider s) (paused s) (cooldownSeconds s)
    (lastSubmissionTime s) (lastDecryptionRequestTime s) (currentBatchId s)
    (isBatchClosed s) (portfolioEntries s) v (events s).

Definition set_events (v : list Event) (s : Storage) : Storage :=
  mkStorage (owner s) (isProvider s) (paused s) (cooldownSeconds s)
    (lastSubmissionTime s) (lastDecryptionRequestTime s) (currentBatchId s)
    (isBatchClosed s) (portfolioEntries s) (decryptionContexts s) v.

(** Mapping reads: a key that was never written reads as the zero value. *)
Definition flag (m : gmap Z bool) (k : Z) : bool := default false (m !! k).
Definition word (m : gmap Z Z) (k : Z) : Z := default 0 (m !! k).
Definition entriesOf (s : Storage) (batch : Z) : list EncryptedNFT :=
  default [] (portfolioEntries s !! batch).
Definition emptyContext : DecryptionContext := mkDecryptionContext 0 0 false.
Definition contextOf (s : Storage) (requestId : Z) : DecryptionContext :=
  default emptyContext (decryptionContexts s !! requestId).

(** The storage of a contract before its constructor runs. *)
Definition zeroStorage : Storage :=
  mkStorage 0 ∅ false 0 ∅ ∅ 0 ∅ ∅ ∅ [].

(** ** Transactions as computations *)

Definition Tx (A : Type) : Type := Storage -> result (A * Storage).

#[export] Instance Tx_ret : MRet Tx := fun A a s => Ok (a, s).
#[export] Instance Tx_bind : MBind Tx := fun A B f m s =>
  match m s with
  | Ok (a, s') => f a s'
  | Revert e => Revert e
  end.

Definition revert {A : Type} (e : error) : Tx A := fun _ => Revert e.
Definition get : Tx Storage := fun s => Ok (s, s).
Definition modify (f : Storage -> Storage) : Tx unit := fun s => Ok (tt, f s).
Definition emit (ev : Event) : Tx unit :=
  modify (fun s => set_events (events s ++ [ev]) s).
Definition lift {A : Type} (r : result A) : Tx A := fun s =>
  match r with
  | Ok a => Ok (a, s)
  | Revert e => Revert e
  end.

(** Checked uint256 arithmetic. *)
Definition checked_add (a b : Z) : result Z :=
  if a + b >? MAX_UINT256 then Revert (Panic 17) else Ok (a + b).
Definition checked_sub (a b : Z) : result Z :=
  if a <? b then Revert (Panic 17) else Ok (a - b).

(** ** Modifiers *)

Definition onlyOwner (e : Env) : Tx unit :=
  s ← get;
  if negb (msg_sender e =? owner s) then revert NotOwner else mret tt.

Definition onlyProvider (e : Env) : Tx unit :=
  s ← get;
  if negb (flag (isProvider s) (msg_sender e)) then revert NotProvider else mret tt.

Definition whenNotPaused : Tx unit :=
  s ← get;
  if paused s then revert PausedError else mret tt.

Definition respectCooldown (e : Env) : Tx unit :=
  s ← get;
  deadline ← lift (checked_add (word (lastSubmissionTime s) (msg_sender e)) (cooldownSeconds s));
  if block_timestamp e <? deadline then revert CooldownActive else mret tt.

(** ** Constructor and owner functions *)

Definition constructor (e : Env) : Tx unit :=
  modify (set_owner (msg_sender e));;
  emit (OwnershipTransferred 0 (msg_sender e));;
  modify (set_currentBatchId 1);;
  s ← get;
  emit (BatchOpened (currentBatchId s));;
  modify (set_cooldownSeconds 60).

Definition transferOwnership (e : Env) (newOwner : address) : Tx unit :=
  onlyOwner e;;
  s ← get;
  emit (OwnershipTransferred (owner s) newOwner);;
  modify (set_owner newOwner).

Definition addProvider (e : Env) (provider : address) : Tx unit :=
  onlyOwner e;;
  modify (fun s => set_isProvider (<[provider := true]> (isProvider s)) s);;
  emit (ProviderAdded provider).

Definition removeProvider (e : Env) (provider : address) : Tx unit :=
  onlyOwner e;;
  modify (fun s => set_isProvider (delete provider (isProvider s)) s);;
  emit (ProviderRemoved provider).

Definition setPaused (e : Env) (_paused : bool) : Tx unit :=
  onlyOwner e;;
  if _paused then
    modify (set_paused true);;
    emit (Paused (msg_sender e))
  else
    modify (set_paused false);;
    emit (Unpaused (msg_sender e)).

Definition setCooldownSeconds (e : Env) (newCooldownSeconds : uint256) : Tx unit :=
  onlyOwner e;;
  s ← get;
  emit (CooldownSecondsSet (cooldownSeconds s) newCooldownSeconds);;
  modify (set_cooldownSeconds newCooldownSeconds).

(** ** Batch ledger *)

Definition openNewBatch (e : Env) : Tx unit :=
  onlyOwner e;;
  whenNotPaused;;
  s ← get;
  next ← lift (checked_add (currentBatchId s) 1);
  modify (set_currentBatchId next);;
  modify (fun s => set_isBatchClosed (<[currentBatchId s := false]> (isBatchClosed s)) s);;
  s ← get;
  emit (BatchOpened (currentBatchId s)).

Definition closeCurrentBatch (e : Env) : Tx unit :=
  onlyOwner e;;
  whenNotPaused;;
  s ← get;
  (if flag (isBatchClosed s) (currentBatchId s) then revert InvalidBatch else mret tt);;
  modify (fun s => set_isBatchClosed (<[currentBatchId s := true]> (isBatchClosed s)) s);;
  s ← get;
  emit (BatchClosed (currentBatchId s)).

(** ** Submission *)

Definition _initIfNeeded (value : euint32) : Tx unit :=
  if negb (FHE_isInitialized value) then revert FHENotInitialized else mret tt.

Definition submitEncryptedNFT (e : Env) (encryptedValue encryptedWeight : euint32) : Tx unit :=
  onlyProvider e;;
  whenNotPaused;;
  respectCooldown e;;
  _initIfNeeded encryptedValue;;
  _initIfNeeded encryptedWeight;;
  s ← get;
  (if flag (isBatchClosed s) (currentBatchId s) then revert BatchNotClosed else mret tt);;
  modify (fun s => set_portfolioEntries
    (<[currentBatchId s := entriesOf s (currentBatchId s) ++ [mkEncryptedNFT encryptedValue encryptedWeight]]>
       (portfolioEntries s)) s);;
  modify (fun s => set_lastSubmissionTime
    (<[msg_sender e := block_timestamp e]> (lastSubmissionTime s)) s);;
  s ← get;
  index ← lift (checked_sub (Z.of_nat (length (entriesOf s (currentBatchId s)))) 1);
  emit (NFTSubmitted (msg_sender e) (currentBatchId s) index).

(** ** Aggregation and the decryption round trip *)

(** [for (uint256 i = 0; i < count; ++i) acc = body(i, acc)], started at
    index [i].  Neither loop of the contract writes to storage, so the bound
    [portfolioEntries[batchId].length] is the same at every test of the loop
    condition and both loops run [length] times. *)
Fixpoint for_range {A : Type} (i count : nat) (body : nat -> A -> Tx A) (acc : A) : Tx A :=
  match count with
  | O => mret acc
  | S k => acc' ← body i acc; for_range (S i) k body acc'
  end.

(** [portfolioEntries[batch][i]], with the compiler's bounds check. *)
Definition entryAt (batch : uint256) (i : nat) : Tx EncryptedNFT :=
  s ← get;
  match entriesOf s batch !! i with
  | Some nft => mret nft
  | None => revert (Panic 50)
  end.

(** The body shared by the two aggregation loops:
    [total = total.add(nft.encryptedValue.mul(nft.encryptedWeight))]. *)
Definition accumulate (batch : uint256) (i : nat) (total : euint32) : Tx euint32 :=
  nft ← entryAt batch i;
  mret (FHE_add total (FHE_mul (encryptedValue nft) (encryptedWeight nft))).

Definition _hashCiphertexts (cts : list bytes32) : bytes32 :=
  keccak256_abi_encode cts this.

Definition requestPortfolioValuation (e : Env) (batchId : uint256) : Tx unit :=
  whenNotPaused;;
  respectCooldown e;;
  s ← get;
  (if negb (flag (isBatchClosed s) batchId) then revert InvalidBatch else mret tt);;
  (if (length (entriesOf s batchId) =? 0)%nat then revert InvalidBatch else mret tt);;
  modify (fun s => set_lastDecryptionRequestTime
    (<[msg_sender e := block_timestamp e]> (lastDecryptionRequestTime s)) s);;
  s ← get;
  let numNFTs := length (entriesOf s batchId) in
  encryptedTotalValue ← for_range 0 numNFTs (accumulate batchId) (FHE_asEuint32 0);
  let cts := [FHE_toBytes32 encryptedTotalValue] in
  let stateHash := _hashCiphertexts cts in
  let requestId := oracle_requestId e in
  modify (fun s => set_decryptionContexts
    (<[requestId := mkDecryptionContext batchId stateHash false]> (decryptionContexts s)) s);;
  emit (PortfolioValuationRequested requestId batchId stateHash).

Definition myCallback (e : Env) (requestId : uint256) (cleartexts proof : bytes) : Tx unit :=
  s ← get;
  (if processed (contextOf s requestId) then revert ReplayAttempt else mret tt);;
  let ctx := contextOf s requestId in
  let batchId := batchId ctx in
  (if (length (entriesOf s batchId) =? 0)%nat then revert InvalidBatch else mret tt);;
  currentEncryptedTotalValue ←
    for_range 0 (length (entriesOf s batchId)) (accumulate batchId) (FHE_asEuint32 0);
  let currentCts := [FHE_toBytes32 currentEncryptedTotalValue] in
  let currentHash := _hashCiphertexts currentCts in
  (if negb (currentHash =? stateHash ctx) then revert StateMismatch else mret tt);;
  (if negb (FHE_checkSignatures requestId cleartexts proof) then revert InvalidProof else mret tt);;
  totalValue ← lift (abi_decode_uint256 cleartexts);
  modify (fun s => set_decryptionContexts
    (<[requestId := set_processed true (contextOf s requestId)]> (decryptionContexts s)) s);;
  emit (PortfolioValuationCompleted requestId batchId totalValue).

(** ** The contract as a transition system *)

Inductive Call : Type :=
| Call_transferOwnership (newOwner : address)
| Call_addProvider (provider : address)
| Call_removeProvider (provider : address)
| Call_setPaused (_paused : bool)
| Call_setCooldownSeconds (newCooldownSeconds : uint256)
| Call_openNewBatch
| Call_closeCurrentBatch
| Call_submitEncryptedNFT (encryptedValue encryptedWeight : euint32)
| Call_requestPortfolioValuation (batchId : uint256)
| Call_myCallback (requestId : uint256) (cleartexts proof : bytes).

Definition run (e : Env) (c : Call) : Tx unit :=
  match c with
  | Call_transferOwnership newOwner => transferOwnership e newOwner
  | Call_addProvider provider => addProvider e provider
  | Call_removeProvider provider => removeProvider e provider
  | Call_setPaused b => setPaused e b
  | Call_setCooldownSeconds n => setCooldownSeconds e n
  | Call_openNewBatch => openNewBatch e
  | Call_closeCurrentBatch => closeCurrentBatch e
  | Call_submitEncryptedNFT v w => submitEncryptedNFT e v w
  | Call_requestPortfolioValuation b => requestPortfolioValuation e b
  | Call_myCallback r c p => myCallback e r c p
  end.

(** A transaction either commits its final storage or reverts to the
    storage it started from. *)
Definition commit (t : Tx unit) (s : Storage) : Storage :=
  match t s with
  | Ok (_, s') => s'
  | Revert _ => s
  end.

Definition exec (s : Storage) (tx : Env * Call) : Storage :=
  commit (run (fst tx) (snd tx)) s.

Definition execAll (s : Storage) (txs : list (Env * Call)) : Storage :=
  fold_left exec txs s.

Definition deploy (e : Env) : Storage := commit (constructor e) zeroStorage.

Inductive reachable : Storage -> Prop :=
| reachable_deploy (e : Env) : reachable (deploy e)
| reachable_exec (s : Storage) (tx : Env * Call) :
    reachable s -> reachable (exec s tx).

(** The aggregate of section 4.4 of the specification: multiply each value
    by its weight and add the products, in submission order, onto an
    encrypted zero. *)
Definition spec_aggregate (entries : list EncryptedNFT) : euint32 :=
  fold_left (fun total nft => FHE_add total (FHE_mul (encryptedValue nft) (encryptedWeight nft)))
    entries (FHE_asEuint32 0).

Definition spec_commitment (entries : list EncryptedNFT) : bytes32 :=
  keccak256_abi_encode [FHE_toBytes32 (spec_aggregate entries)] this.

(** What holds of the batch ledger in every reachable state: batch ids start
    at 1, and only ids that were already allocated carry a closed flag or
    entries. *)
Definition ledger_invariant (s : Storage) : Prop :=
  1 <= currentBatchId s /\
  (forall b, flag (isBatchClosed s) b = true -> 1 <= b <= currentBatchId s) /\
  (forall b, entriesOf s b <> [] -> 1 <= b <= currentBatchId s).

(** The decryption oracle hands out fresh request ids: [tx] is not a
    valuation request that the oracle answers with the id [requestId]. *)
Definition oracle_keeps_fresh (requestId : uint256) (tx : Env * Call) : Prop :=
  match snd tx with
  | Call_requestPortfolioValuation _ => oracle_requestId (fst tx) <> requestId
  | _ => True
  end.

End Contract.

(** ** Reading the ledger and its log *)

Section Observers.
Context `{P : Platform}.

(** The external functions that carry the [onlyOwner] modifier. *)
Definition ownerOnly (c : Call) : bool :=
  match c with
  | Call_transferOwnership _ | Call_addProvider _ | Call_removeProvider _
  | Call_setPaused _ | Call_setCooldownSeconds _
  | Call_openNewBatch | Call_closeCurrentBatch => true
  | Call_submitEncryptedNFT _ _ | Call_requestPortfolioValuation _
  | Call_myCallback _ _ _ => false
  end.

(** What holds of every stored decryption context in a reachable state: its
    batch is closed and not empty, and its hash is the commitment to the
    batch's entries as they are now. *)
Definition contexts_invariant (s : Storage) : Prop :=
  forall rid ctx, decryptionContexts s !! rid = Some ctx ->
    flag (isBatchClosed s) (batchId ctx) = true /\
    entriesOf s (batchId ctx) <> [] /\
    stateHash ctx = spec_commitment (entriesOf s (batchId ctx)).

(** The plaintext weighted sum of a batch under a decryption [dec]. *)
Definition weightedSum (dec : euint32 -> Z) (entries : list EncryptedNFT) : Z :=
  foldr (fun nft total => dec (encryptedValue nft) * dec (encryptedWeight nft) + total)
    0 entries.

(** Storage with the [lastDecryptionRequestTime] mapping blanked. *)
Definition withoutRequestTimes (s : Storage) : Storage :=
  set_lastDecryptionRequestTime ∅ s.

End Observers.

(** The batch ids logged by [BatchOpened] and [BatchClosed], and the indices
    logged by [NFTSubmitted] for one batch, oldest first. *)
Definition openedBatches (log : list Event) : list Z :=
  omap (fun ev => match ev with BatchOpened b => Some b | _ => None end) log.

Definition closedBatches (log : list Event) : list Z :=
  omap (fun ev => match ev with BatchClosed b => Some b | _ => None end) log.

Definition submittedIndices (batch : Z) (log : list Event) : list Z :=
  omap (fun ev => match ev with
                  | NFTSubmitted _ b i => if b =? batch then Some i else None
                  | _ => None
                  end) log.

(** ** A clear-text stand-in for the FHE library

    Used to run the contract on concrete transactions.  A handle is the
    plaintext plus one, so that handle 0 is the uninitialised one; a proof is
    accepted when it is not empty. *)
Definition mockPlatform : Platform := {|
  euint32 := Z;
  FHE_asEuint32 := fun n => n mod 2 ^ 32 + 1;
  FHE_add := fun a b => ((a - 1) + (b - 1)) mod 2 ^ 32 + 1;
  FHE_mul := fun a b => ((a - 1) * (b - 1)) mod 2 ^ 32 + 1;
  FHE_toBytes32 := fun h => h;
  FHE_isInitialized := fun h => negb (h =? 0);
  FHE_checkSignatures := fun _ _ proof => negb (length proof =? 0)%nat;
  keccak256_abi_encode := fun cts a => fold_left (fun acc c => acc * 2 ^ 256 + c) cts a;
  this := 4096
|}.

Definition alice : address := 1.
Definition bob : address := 2.
Definition carol : address := 3.

(** Alice deploys the contract at time 0. *)
Definition genesis : @Storage mockPlatform := deploy (mkEnv alice 0 0).

(** Alice registers Bob, Bob submits (value 3, weight 2) at time 1000 and
    Alice closes batch 1. *)
Definition closedBatch : @Storage mockPlatform :=
  execAll genesis
    [ (mkEnv alice 10 0, Call_addProvider bob);
      (mkEnv bob 1000 0, Call_submitEncryptedNFT (4 : @euint32 mockPlatform) 3);
      (mkEnv alice 1001 0, Call_closeCurrentBatch) ].

(** Carol, who never submitted anything, has requested the valuation of
    batch 1 at time 2000; the oracle answered with request id 7. *)
Definition requestedByCarol : @Storage mockPlatform :=
  exec closedBatch (mkEnv carol 2000 7, Call_requestPortfolioValuation 1).

(** One second later Carol has requested the valuation again; the oracle
    answered with request id 8. *)
Definition requestedTwice : @Storage mockPlatform :=
  exec requestedByCarol (mkEnv carol 2001 8, Call_requestPortfolioValuation 1).

(** Alice has opened batch 2 while batch 1 was still open. *)
Definition bypassedBatch : @Storage mockPlatform :=
  exec genesis (mkEnv alice 10 0, Call_openNewBatch).

(** The contract right after Alice has paused it. *)
Definition pausedGenesis : @Storage mockPlatform :=
  exec genesis (mkEnv alice 10 0, Call_setPaused true).

(** 32 bytes that decode to 7, and a non-empty proof. *)
Definition cleartext7 : list byte := replicate 31 x00 ++ [x07].
Definition someProof : list byte := [x01].

(** After Carol's request Alice opens batch 2 and Bob submits into it. *)
Definition laterTxs : list (Env * @Call mockPlatform) :=
  [ (mkEnv alice 2100 0, Call_openNewBatch);
    (mkEnv bob 2200 0, Call_submitEncryptedNFT (6 : @euint32 mockPlatform) 2) ].

Definition laterLedger : @Storage mockPlatform := execAll requestedByCarol laterTxs.

(** Carol's request has been finalised by an arbitrary caller, address 9. *)
Definition finalized : @Storage mockPlatform :=
  exec requestedByCarol (mkEnv 9 3000 0, Call_myCallback 7 cleartext7 someProof).

(** Batch 1 was bypassed and the contract was then paused. *)
Definition pausedBypassed : @Storage mockPlatform :=
  exec bypassedBatch (mkEnv alice 20 0, Call_setPaused true).

(** Batch 1 was bypassed and Bob submitted into batch 2 at time 1000. *)
Definition bypassedWithSubmission : @Storage mockPlatform :=
  execAll bypassedBatch
    [ (mkEnv alice 20 0, Call_addProvider bob);
      (mkEnv bob 1000 0, Call_submitEncryptedNFT (4 : @euint32 mockPlatform) 3) ].

(** The owner tries to close the bypassed batch: she can only close batch 2,
    then open batch 3. *)
Definition closingAttempts : list (Env * @Call mockPlatform) :=
  [ (mkEnv alice 30 0, Call_closeCurrentBatch);
    (mkEnv alice 40 0, Call_closeCurrentBatch);
    (mkEnv alice 50 0, Call_openNewBatch) ].

(** Alice has registered Bob; batch 1 is open and empty. *)
Definition withProvider : @Storage mockPlatform :=
  exec genesis (mkEnv alice 10 0, Call_addProvider bob).

(** Bob has made his first submission, at time 1000. *)
Definition firstSubmission : @Storage mockPlatform :=
  exec withProvider (mkEnv bob 1000 0, Call_submitEncryptedNFT (4 : @euint32 mockPlatform) 3).

(** After Bob's submission Alice has set the largest cooldown there is. *)
Definition hugeCooldown : @Storage mockPlatform :=
  exec firstSubmission (mkEnv alice 1100 0, Call_setCooldownSeconds MAX_UINT256).

(** Alice has closed batch 1 before anybody submitted into it. *)
Definition closedEmpty : @Storage mockPlatform :=
  exec genesis (mkEnv alice 10 0, Call_closeCurrentBatch).

(** Alice has handed the contract over to Carol. *)
Definition handedOver : @Storage mockPlatform :=
  exec closedBatch (mkEnv alice 1100 0, Call_transferOwnership carol).

(** Batch 1 is closed and Alice has then paused the contract. *)
Definition pausedClosed : @Storage mockPlatform :=
  exec closedBatch (mkEnv alice 1100 0, Call_setPaused true).

(** A cleartext of 31 bytes, one short of a uint256. *)
Definition shortCleartext : list byte := replicate 31 x00.

(** Decryption for the stand-in: a handle is the plaintext plus one. *)
Definition mockDecrypt (h : @euint32 mockPlatform) : Z := h - 1.

(** * Properties *)

Section Aggregation.
Context `{P : Platform}.

Lemma commit_revert (t : Tx unit) (s : Storage) (err : error) :
  t s = Revert err -> commit t s = s.
Proof. unfold commit. intros ->. reflexivity. Qed.

Lemma commit_ok (t : Tx unit) (s s' : Storage) :
  t s = Ok (tt, s') -> commit t s = s'.
Proof. unfold commit. intros ->. reflexivity. Qed.

(** Both aggregation loops are the left fold of the specification. *)
Lemma for_range_accumulate (s : Storage) (b : Z) (seen rest : list EncryptedNFT) (acc : euint32) :
  entriesOf s b = seen ++ rest ->
  for_range (length seen) (length rest) (accumulate b) acc s =
  Ok (fold_left (fun total nft => FHE_add total (FHE_mul (encryptedValue nft) (encryptedWeight nft)))
        rest acc, s).
Proof.
  revert seen acc.
  induction rest as [|nft rest IH]; intros seen acc Hsplit; simpl.
  - reflexivity.
  - unfold mbind at 1. unfold Tx_bind, accumulate at 1, entryAt, get.
    unfold mbind, Tx_bind. rewrite Hsplit.
    rewrite lookup_app_r by lia. rewrite Nat.sub_diag. simpl.
    unfold mret, Tx_ret.
    specialize (IH (seen ++ [nft])).
    rewrite length_app in IH. simpl in IH.
    replace (length seen + 1)%nat with (S (length seen)) in IH by lia.
    apply IH. rewrite <- app_assoc. exact Hsplit.
Qed.

Lemma aggregation_loop (s : Storage) (b : Z) :
  for_range 0 (length (entriesOf s b)) (accumulate b) (FHE_asEuint32 0) s =
  Ok (spec_aggregate (entriesOf s b), s).
Proof. apply (for_range_accumulate s b []). reflexivity. Qed.

End Aggregation.

Ltac tx_unfold :=
  unfold transferOwnership, addProvider, removeProvider, setPaused,
    setCooldownSeconds, openNewBatch, closeCurrentBatch, submitEncryptedNFT,
    onlyOwner, onlyProvider, whenNotPaused, respectCooldown, _initIfNeeded,
    emit, modify, get, revert, lift, checked_add, checked_sub,
    mbind, Tx_bind, mret, Tx_ret in *.

Section FunctionEquations.
Context `{P : Platform}.

Lemma openNewBatch_eq (e : Env) (s : Storage) :
  openNewBatch e s =
  if negb (msg_sender e =? owner s) then Revert NotOwner
  else if paused s then Revert PausedError
  else if currentBatchId s + 1 >? MAX_UINT256 then Revert (Panic 17)
  else Ok (tt, set_events (events s ++ [BatchOpened (currentBatchId s + 1)])
                 (set_isBatchClosed (<[currentBatchId s + 1 := false]> (isBatchClosed s))
                    (set_currentBatchId (currentBatchId s + 1) s))).
Proof.
  tx_unfold.
  destruct (negb (msg_sender e =? owner s)); [reflexivity|].
  destruct (paused s); [reflexivity|].
  destruct (currentBatchId s + 1 >? MAX_UINT256); reflexivity.
Qed.

Lemma requestPortfolioValuation_eq (e : Env) (b : Z) (s : Storage) :
  requestPortfolioValuation e b s =
  if paused s then Revert PausedError
  else if word (lastSubmissionTime s) (msg_sender e) + cooldownSeconds s >? MAX_UINT256
    then Revert (Panic 17)
  else if block_timestamp e <? word (lastSubmissionTime s) (msg_sender e) + cooldownSeconds s
    then Revert CooldownActive
  else if negb (flag (isBatchClosed s) b) then Revert InvalidBatch
  else if (length (entriesOf s b) =? 0)%nat then Revert InvalidBatch
  else Ok (tt,
    set_events (events s ++
        [PortfolioValuationRequested (oracle_requestId e) b (spec_commitment (entriesOf s b))])
      (set_decryptionContexts
         (<[oracle_requestId e :=
              mkDecryptionContext b (spec_commitment (entriesOf s b)) false]>
            (decryptionContexts s))
         (set_lastDecryptionRequestTime
            (<[msg_sender e := block_timestamp e]> (lastDecryptionRequestTime s)) s))).
Proof.
  unfold requestPortfolioValuation. tx_unfold.
  destruct (paused s); [reflexivity|].
  destruct (_ + _ >? MAX_UINT256); [reflexivity|].
  destruct (block_timestamp e <? _); [reflexivity|].
  destruct (negb (flag (isBatchClosed s) b)); [reflexivity|].
  destruct (length (entriesOf s b) =? 0)%nat; [reflexivity|].
  rewrite aggregation_loop. reflexivity.
Qed.

Lemma myCallback_eq (e : Env) (rid : Z) (cleartexts proof : bytes) (s : Storage) :
  myCallback e rid cleartexts proof s =
  if processed (contextOf s rid) then Revert ReplayAttempt
  else if (length (entriesOf s (batchId (contextOf s rid))) =? 0)%nat then Revert InvalidBatch
  else if negb (spec_commitment (entriesOf s (batchId (contextOf s rid)))
                =? stateHash (contextOf s rid))
    then Revert StateMismatch
  else if negb (FHE_checkSignatures rid cleartexts proof) then Revert InvalidProof
  else match abi_decode_uint256 cleartexts with
       | Revert err => Revert err
       | Ok totalValue =>
           Ok (tt,
             set_events (events s ++
                 [PortfolioValuationCompleted rid (batchId (contextOf s rid)) totalValue])
               (set_decryptionContexts
                  (<[rid := set_processed true (contextOf s rid)]> (decryptionContexts s)) s))
       end.
Proof.
  unfold myCallback. tx_unfold.
  destruct (processed (contextOf s rid)); [reflexivity|].
  destruct (length _ =? 0)%nat; [reflexivity|].
  rewrite aggregation_loop. unfold _hashCiphertexts. fold (spec_commitment (entriesOf s (batchId (contextOf s rid)))).
  destruct (negb _); [reflexivity|].
  destruct (negb _); [reflexivity|].
  destruct (abi_decode_uint256 cleartexts); reflexivity.
Qed.

Lemma closeCurrentBatch_eq (e : Env) (s : Storage) :
  closeCurrentBatch e s =
  if negb (msg_sender e =? owner s) then Revert NotOwner
  else if paused s then Revert PausedError
  else if flag (isBatchClosed s) (currentBatchId s) then Revert InvalidBatch
  else Ok (tt, set_events (events s ++ [BatchClosed (currentBatchId s)])
                 (set_isBatchClosed (<[currentBatchId s := true]> (isBatchClosed s)) s)).
Proof.
  tx_unfold.
  destruct (negb (msg_sender e =? owner s)); [reflexivity|].
  destruct (paused s); [reflexivity|].
  destruct (flag (isBatchClosed s) (currentBatchId s)); reflexivity.
Qed.

Lemma entriesOf_push (s : Storage) (b : Z) (l : list EncryptedNFT) :
  entriesOf (set_portfolioEntries (<[b := l]> (portfolioEntries s)) s) b = l.
Proof. unfold entriesOf. simpl. rewrite lookup_insert_eq. reflexivity. Qed.

Lemma submitEncryptedNFT_eq (e : Env) (v w : euint32) (s : Storage) :
  submitEncryptedNFT e v w s =
  if negb (flag (isProvider s) (msg_sender e)) then Revert NotProvider
  else if paused s then Revert PausedError
  else if word (lastSubmissionTime s) (msg_sender e) + cooldownSeconds s >? MAX_UINT256
    then Revert (Panic 17)
  else if block_timestamp e <? word (lastSubmissionTime s) (msg_sender e) + cooldownSeconds s
    then Revert CooldownActive
  else if negb (FHE_isInitialized v) then Revert FHENotInitialized
  else if negb (FHE_isInitialized w) then Revert FHENotInitialized
  else if flag (isBatchClosed s) (currentBatchId s) then Revert BatchNotClosed
  else Ok (tt,
    set_events (events s ++
        [NFTSubmitted (msg_sender e) (currentBatchId s)
           (Z.of_nat (length (entriesOf s (currentBatchId s))))])
      (set_lastSubmissionTime
         (<[msg_sender e := block_timestamp e]> (lastSubmissionTime s))
         (set_portfolioEntries
            (<[currentBatchId s := entriesOf s (currentBatchId s) ++ [mkEncryptedNFT v w]]>
               (portfolioEntries s)) s))).
Proof.
  tx_unfold.
  destruct (negb (flag (isProvider s) (msg_sender e))); [reflexivity|].
  destruct (paused s); [reflexivity|].
  destruct (_ + _ >? MAX_UINT256); [reflexivity|].
  destruct (block_timestamp e <? _); [reflexivity|].
  destruct (negb (FHE_isInitialized v)); [reflexivity|].
  destruct (negb (FHE_isInitialized w)); [reflexivity|].
  destruct (flag (isBatchClosed s) (currentBatchId s)); [reflexivity|].
  cbn [currentBatchId set_lastSubmissionTime set_portfolioEntries].
  match goal with |- context [entriesOf ?t (currentBatchId s)] =>
    lazymatch t with
    | s => fail
    | _ => replace (entriesOf t (currentBatchId s))
             with (entriesOf s (currentBatchId s) ++ [mkEncryptedNFT v w])
    end
  end.
  2:{ symmetry. apply entriesOf_push. }
  rewrite length_app. simpl length.
  destruct (Z.ltb_spec (Z.of_nat (length (entriesOf s (currentBatchId s)) + 1)) 1) as [Hlt|Hge];
    [lia|].
  replace (Z.of_nat (length (entriesOf s (currentBatchId s)) + 1) - 1)
    with (Z.of_nat (length (entriesOf s (currentBatchId s)))) by lia.
  reflexivity.
Qed.

Lemma transferOwnership_eq (e : Env) (newOwner : Z) (s : Storage) :
  transferOwnership e newOwner s =
  if negb (msg_sender e =? owner s) then Revert NotOwner
  else Ok (tt, set_owner newOwner
                 (set_events (events s ++ [OwnershipTransferred (owner s) newOwner]) s)).
Proof. tx_unfold. destruct (negb _); reflexivity. Qed.

Lemma addProvider_eq (e : Env) (provider : Z) (s : Storage) :
  addProvider e provider s =
  if negb (msg_sender e =? owner s) then Revert NotOwner
  else Ok (tt, set_events (events s ++ [ProviderAdded provider])
                 (set_isProvider (<[provider := true]> (isProvider s)) s)).
Proof. tx_unfold. destruct (negb _); reflexivity. Qed.

Lemma removeProvider_eq (e : Env) (provider : Z) (s : Storage) :
  removeProvider e provider s =
  if negb (msg_sender e =? owner s) then Revert NotOwner
  else Ok (tt, set_events (events s ++ [ProviderRemoved provider])
                 (set_isProvider (delete provider (isProvider s)) s)).
Proof. tx_unfold. destruct (negb _); reflexivity. Qed.

Lemma setPaused_eq (e : Env) (b : bool) (s : Storage) :
  setPaused e b s =
  if negb (msg_sender e =? owner s) then Revert NotOwner
  else Ok (tt, set_events
                 (events s ++ [if b then Paused (msg_sender e) else Unpaused (msg_sender e)])
                 (set_paused b s)).
Proof. tx_unfold. destruct (negb _); [reflexivity|]. destruct b; reflexivity. Qed.

Lemma setCooldownSeconds_eq (e : Env) (n : Z) (s : Storage) :
  setCooldownSeconds e n s =
  if negb (msg_sender e =? owner s) then Revert NotOwner
  else Ok (tt, set_cooldownSeconds n
                 (set_events (events s ++ [CooldownSecondsSet (cooldownSeconds s) n]) s)).
Proof. tx_unfold. destruct (negb _); reflexivity. Qed.

End FunctionEquations.

Ltac storage_simpl :=
  cbn [owner isProvider paused cooldownSeconds lastSubmissionTime
       lastDecryptionRequestTime currentBatchId isBatchClosed portfolioEntries
       decryptionContexts events set_owner set_isProvider set_paused
       set_cooldownSeconds set_lastSubmissionTime set_lastDecryptionRequestTime
       set_currentBatchId set_isBatchClosed set_portfolioEntries
       set_decryptionContexts set_events] in *.

Ltac exec_cases tx :=
  destruct tx as [? []]; unfold exec, commit, run; cbn [fst snd];
  rewrite ?transferOwnership_eq, ?addProvider_eq, ?removeProvider_eq,
    ?setPaused_eq, ?setCooldownSeconds_eq, ?openNewBatch_eq,
    ?closeCurrentBatch_eq, ?submitEncryptedNFT_eq,
    ?requestPortfolioValuation_eq, ?myCallback_eq;
  repeat match goal with
    | |- context [match abi_decode_uint256 ?c with _ => _ end] =>
        destruct (abi_decode_uint256 c) eqn:?
    | |- context [if ?c then _ else _] => destruct c eqn:?
    end;
  storage_simpl.

Section Frame.
Context `{P : Platform}.

Lemma flag_insert (m : gmap Z bool) (k k' : Z) (v : bool) :
  flag (<[k := v]> m) k' = if decide (k = k') then v else flag m k'.
Proof.
  unfold flag. rewrite lookup_insert. destruct (decide (k = k')); reflexivity.
Qed.

(** Only a successful [openNewBatch] moves [currentBatchId], and by one. *)
Lemma exec_currentBatchId (s : Storage) (tx : Env * Call) :
  currentBatchId (exec s tx) = currentBatchId s \/
  (snd tx = Call_openNewBatch /\
   run (fst tx) (snd tx) s = Ok (tt, exec s tx) /\
   currentBatchId (exec s tx) = currentBatchId s + 1).
Proof.
  exec_cases tx; try (left; reflexivity).
  right. split; [reflexivity|]. split; reflexivity.
Qed.

Lemma exec_currentBatchId_le (s : Storage) (tx : Env * Call) :
  currentBatchId s <= currentBatchId (exec s tx).
Proof. destruct (exec_currentBatchId s tx) as [->|(_ & _ & ->)]; lia. Qed.

Lemma execAll_cons (s : Storage) (tx : Env * Call) (txs : list (Env * Call)) :
  execAll s (tx :: txs) = execAll (exec s tx) txs.
Proof. reflexivity. Qed.

Lemma execAll_currentBatchId_le (txs : list (Env * Call)) (s : Storage) :
  currentBatchId s <= currentBatchId (execAll s txs).
Proof.
  revert s. induction txs as [|tx txs IH]; intros s.
  - unfold execAll. simpl. lia.
  - rewrite execAll_cons. specialize (IH (exec s tx)).
    pose proof (exec_currentBatchId_le s tx). lia.
Qed.

(** The closed flag of a batch changes in two ways only: a successful
    [closeCurrentBatch] sets the flag of the current batch, and a successful
    [openNewBatch] writes [false] to the flag of the id it allocates. *)
Lemma exec_isBatchClosed (s : Storage) (tx : Env * Call) (b : Z) :
  flag (isBatchClosed (exec s tx)) b = flag (isBatchClosed s) b \/
  (snd tx = Call_closeCurrentBatch /\ b = currentBatchId s /\
   flag (isBatchClosed s) b = false /\ flag (isBatchClosed (exec s tx)) b = true /\
   run (fst tx) (snd tx) s = Ok (tt, exec s tx)) \/
  (snd tx = Call_openNewBatch /\ b = currentBatchId s + 1 /\
   flag (isBatchClosed (exec s tx)) b = false).
Proof.
  exec_cases tx; try (left; reflexivity).
  - rewrite flag_insert. destruct (decide (currentBatchId s + 1 = b)) as [<-|Hne].
    + right. right. auto.
    + left. reflexivity.
  - rewrite flag_insert. destruct (decide (currentBatchId s = b)) as [<-|Hne].
    + right. left. auto 6.
    + left. reflexivity.
Qed.

(** Entries are only ever appended, by a successful submission, to the
    current batch, and only while that batch is open. *)
Lemma exec_entriesOf (s : Storage) (tx : Env * Call) (b : Z) :
  entriesOf (exec s tx) b = entriesOf s b \/
  (b = currentBatchId s /\ flag (isBatchClosed s) b = false /\
   exists v w, snd tx = Call_submitEncryptedNFT v w /\
     entriesOf (exec s tx) b = entriesOf s b ++ [mkEncryptedNFT v w]).
Proof.
  exec_cases tx; try (left; reflexivity).
  destruct (decide (currentBatchId s = b)) as [<-|Hne].
  - right. split; [reflexivity|]. split; [assumption|].
    eexists _, _. split; [reflexivity|].
    unfold entriesOf at 1. storage_simpl. rewrite lookup_insert_eq. reflexivity.
  - left. unfold entriesOf. storage_simpl.
    rewrite lookup_insert_ne by assumption. reflexivity.
Qed.

(** A decryption context is written by a successful request, under the id
    the oracle hands out, and by a successful callback, which only sets its
    [processed] flag. *)
Lemma exec_decryptionContexts (s : Storage) (tx : Env * Call) (r : Z) :
  decryptionContexts (exec s tx) !! r = decryptionContexts s !! r \/
  (exists b, snd tx = Call_requestPortfolioValuation b /\
     r = oracle_requestId (fst tx) /\
     flag (isBatchClosed s) b = true /\ entriesOf s b <> [] /\
     decryptionContexts (exec s tx) !! r =
       Some (mkDecryptionContext b (spec_commitment (entriesOf s b)) false)) \/
  (exists cleartexts proof, snd tx = Call_myCallback r cleartexts proof /\
     processed (contextOf s r) = false /\
     entriesOf s (batchId (contextOf s r)) <> [] /\
     decryptionContexts (exec s tx) !! r = Some (set_processed true (contextOf s r))).
Proof.
  exec_cases tx; try (left; reflexivity).
  - destruct (decide (oracle_requestId e = r)) as [<-|Hne].
    + right. left. eexists. split; [reflexivity|]. split; [reflexivity|].
      split; [destruct (flag (isBatchClosed s) batchId0); [reflexivity|discriminate]|].
      split; [intros Hnil; rewrite Hnil in *; discriminate|].
      apply lookup_insert_eq.
    + left. apply lookup_insert_ne. assumption.
  - destruct (decide (requestId = r)) as [<-|Hne].
    + right. right. eexists _, _. split; [reflexivity|]. split; [assumption|].
      split; [intros Hnil; rewrite Hnil in *; discriminate|].
      apply lookup_insert_eq.
    + left. apply lookup_insert_ne. assumption.
Qed.

End Frame.

Section Invariant.
Context `{P : Platform}.

Lemma deploy_eq (e : Env) :
  deploy e =
  mkStorage (msg_sender e) ∅ false 60 ∅ ∅ 1 ∅ ∅ ∅
    [OwnershipTransferred 0 (msg_sender e); BatchOpened 1].
Proof. reflexivity. Qed.

Lemma ledger_invariant_deploy (e : Env) : ledger_invariant (deploy e).
Proof.
  rewrite deploy_eq. unfold ledger_invariant, flag, entriesOf. storage_simpl.
  split; [lia|]. split; intros b; rewrite lookup_empty; simpl; congruence.
Qed.

Lemma ledger_invariant_exec (s : Storage) (tx : Env * Call) :
  ledger_invariant s -> ledger_invariant (exec s tx).
Proof.
  intros (Hcur & Hclosed & Hentries).
  pose proof (exec_currentBatchId_le s tx) as Hle.
  split; [lia|]. split; intros b Hb.
  - destruct (exec_isBatchClosed s tx b) as [Heq|[(_ & -> & _)|(_ & _ & Hfalse)]].
    + rewrite Heq in Hb. specialize (Hclosed b Hb). lia.
    + lia.
    + congruence.
  - destruct (exec_entriesOf s tx b) as [Heq|(-> & _)].
    + rewrite Heq in Hb. specialize (Hentries b Hb). lia.
    + lia.
Qed.

Lemma reachable_ledger_invariant (s : Storage) :
  reachable s -> ledger_invariant s.
Proof.
  induction 1 as [e|s tx _ IH].
  - apply ledger_invariant_deploy.
  - apply ledger_invariant_exec, IH.
Qed.

Lemma reachable_execAll (txs : list (Env * Call)) (s : Storage) :
  reachable s -> reachable (execAll s txs).
Proof.
  revert s. induction txs as [|tx txs IH]; intros s Hs.
  - exact Hs.
  - rewrite execAll_cons. apply IH. constructor. exact Hs.
Qed.

(** In a reachable state a closed flag survives every transaction. *)
Lemma closed_stays_closed (s : Storage) (tx : Env * Call) (b : Z) :
  reachable s ->
  flag (isBatchClosed s) b = true -> flag (isBatchClosed (exec s tx)) b = true.
Proof.
  intros Hs Hb.
  destruct (reachable_ledger_invariant s Hs) as (_ & Hclosed & _).
  destruct (exec_isBatchClosed s tx b) as [Heq|[(_ & _ & _ & Htrue & _)|(_ & -> & _)]].
  - congruence.
  - exact Htrue.
  - specialize (Hclosed _ Hb). lia.
Qed.

(** The entries of a closed batch are frozen: in a reachable state no
    sequence of transactions changes them. *)
Lemma closed_batch_entries_frozen (txs : list (Env * Call)) (s : Storage) (b : Z) :
  reachable s ->
  flag (isBatchClosed s) b = true ->
  entriesOf (execAll s txs) b = entriesOf s b.
Proof.
  revert s. induction txs as [|tx txs IH]; intros s Hs Hb.
  - reflexivity.
  - rewrite execAll_cons, IH.
    + destruct (exec_entriesOf s tx b) as [Hsame|(_ & Hopen & _)]; congruence.
    + constructor. exact Hs.
    + apply closed_stays_closed; assumption.
Qed.

End Invariant.

Section Finalize.
Context `{P : Platform}.

Lemma contextOf_lookup (s t : Storage) (r : Z) :
  decryptionContexts t !! r = decryptionContexts s !! r -> contextOf t r = contextOf s r.
Proof. unfold contextOf. intros ->. reflexivity. Qed.

(** A processed context stays processed as long as the oracle does not
    hand out its request id a second time. *)
Lemma processed_exec (s : Storage) (tx : Env * Call) (r : Z) :
  oracle_keeps_fresh r tx ->
  processed (contextOf s r) = true -> processed (contextOf (exec s tx) r) = true.
Proof.
  intros Hfresh Hdone.
  destruct (exec_decryptionContexts s tx r)
    as [Heq|[(b & Hcall & Hid & _)|(c & p & _ & Hpending & _)]].
  - rewrite (contextOf_lookup _ _ _ Heq). exact Hdone.
  - unfold oracle_keeps_fresh in Hfresh. rewrite Hcall in Hfresh. congruence.
  - congruence.
Qed.

Lemma processed_execAll (txs : list (Env * Call)) (s : Storage) (r : Z) :
  Forall (oracle_keeps_fresh r) txs ->
  processed (contextOf s r) = true -> processed (contextOf (execAll s txs) r) = true.
Proof.
  revert s. induction txs as [|tx txs IH]; intros s Hfresh Hdone.
  - exact Hdone.
  - rewrite execAll_cons. inversion Hfresh; subst.
    apply IH; [assumption|]. apply processed_exec; assumption.
Qed.

Lemma myCallback_replay (e : Env) (r : Z) (cleartexts proof : bytes) (s : Storage) :
  processed (contextOf s r) = true ->
  myCallback e r cleartexts proof s = Revert ReplayAttempt.
Proof. intros H. rewrite myCallback_eq, H. reflexivity. Qed.

End Finalize.

Section Claims.
Context `{P : Platform}.

(** C2. [requestPortfolioValuation] and [myCallback] compute the aggregate by
    the same fold (each value times its weight, added in submission order
    onto an encrypted zero).  Hence, when a request on batch [b] succeeds in
    [s] and the entries of [b] are the same in the state [t] in which the
    callback runs on the context that request stored, the commitment
    recomputed in [t] is the stored [stateHash] and the callback does not
    revert with [StateMismatch]. *)
Theorem C2_commitment_rederived_at_finalize
    (e1 e2 : Env) (b : Z) (s s1 t : Storage) (cleartexts proof : bytes) :
  requestPortfolioValuation e1 b s = Ok (tt, s1) ->
  entriesOf t b = entriesOf s b ->
  batchId (contextOf t (oracle_requestId e1)) = batchId (contextOf s1 (oracle_requestId e1)) ->
  stateHash (contextOf t (oracle_requestId e1)) = stateHash (contextOf s1 (oracle_requestId e1)) ->
  for_range 0 (length (entriesOf s b)) (accumulate b) (FHE_asEuint32 0) s
    = Ok (spec_aggregate (entriesOf s b), s) /\
  for_range 0 (length (entriesOf t b)) (accumulate b) (FHE_asEuint32 0) t
    = Ok (spec_aggregate (entriesOf s b), t) /\
  contextOf s1 (oracle_requestId e1)
    = mkDecryptionContext b (_hashCiphertexts [FHE_toBytes32 (spec_aggregate (entriesOf s b))]) false /\
  _hashCiphertexts [FHE_toBytes32 (spec_aggregate (entriesOf t b))]
    = stateHash (contextOf t (oracle_requestId e1)) /\
  myCallback e2 (oracle_requestId e1) cleartexts proof t <> Revert StateMismatch.
Proof.
  intros Hreq Hentries Hbatch Hhash.
  assert (Hctx : contextOf s1 (oracle_requestId e1)
                 = mkDecryptionContext b (spec_commitment (entriesOf s b)) false).
  { rewrite requestPortfolioValuation_eq in Hreq.
    repeat match type of Hreq with
      | (if ?c then _ else _) = _ => destruct c; [discriminate|]
      end.
    injection Hreq as <-. unfold contextOf. storage_simpl.
    rewrite lookup_insert_eq. reflexivity. }
  rewrite Hctx in Hbatch, Hhash. simpl in Hbatch, Hhash.
  split; [apply aggregation_loop|].
  split; [rewrite <- Hentries; apply aggregation_loop|].
  split; [exact Hctx|].
  split; [rewrite Hentries, Hhash; reflexivity|].
  rewrite myCallback_eq, Hbatch, Hentries, Hhash, Z.eqb_refl. simpl.
  repeat match goal with
    | |- (if ?c then _ else _) <> _ => destruct c; [discriminate|]
    end.
  destruct (abi_decode_uint256 cleartexts) as [v|err] eqn:Hdec; [discriminate|].
  unfold abi_decode_uint256 in Hdec.
  destruct (length cleartexts <? 32)%nat; congruence.
Qed.

(** C3. Replay protection: a successful [myCallback] for [rid] finds the
    context unprocessed and leaves it processed; from then on, through any
    transactions in which the oracle does not hand out [rid] again, every
    [myCallback] for [rid] reverts with [ReplayAttempt] and leaves the
    storage as it was. *)
Theorem C3_replay_protection
    (e : Env) (rid : Z) (cleartexts proof : bytes) (s s' : Storage) :
  myCallback e rid cleartexts proof s = Ok (tt, s') ->
  processed (contextOf s rid) = false /\
  processed (contextOf s' rid) = true /\
  s' <> s /\
  forall txs, Forall (oracle_keeps_fresh rid) txs ->
    forall e' cleartexts' proof',
      myCallback e' rid cleartexts' proof' (execAll s' txs) = Revert ReplayAttempt /\
      exec (execAll s' txs) (e', Call_myCallback rid cleartexts' proof') = execAll s' txs.
Proof.
  intros Hcall. rewrite myCallback_eq in Hcall.
  destruct (processed (contextOf s rid)) eqn:Hpending; [discriminate|].
  repeat match type of Hcall with
    | (if ?c then _ else _) = _ => destruct c; [discriminate|]
    end.
  destruct (abi_decode_uint256 cleartexts) as [total|]; [|discriminate].
  injection Hcall as <-.
  assert (Hdone : processed (contextOf
            (set_events (events s ++
                 [PortfolioValuationCompleted rid (batchId (contextOf s rid)) total])
               (set_decryptionContexts
                  (<[rid := set_processed true (contextOf s rid)]> (decryptionContexts s)) s))
            rid) = true).
  { unfold contextOf at 1. storage_simpl. rewrite lookup_insert_eq. reflexivity. }
  split; [reflexivity|]. split; [exact Hdone|].
  split; [intros Heq; rewrite Heq in Hdone; congruence|].
  intros txs Hfresh e' cleartexts' proof'.
  pose proof (processed_execAll txs _ rid Hfresh Hdone) as Hlater.
  pose proof (myCallback_replay e' rid cleartexts' proof' _ Hlater) as Hreplay.
  split; [exact Hreplay|].
  unfold exec. cbn [fst snd run]. apply (commit_revert _ _ _ Hreplay).
Qed.

(** The cooldown gate of a valuation request, once past the pause check:
    it rejects with [CooldownActive] exactly when the block time is below
    the caller's last submission time plus the cooldown.  The caller's
    [lastDecryptionRequestTime] does not occur in it. *)
Lemma requestPortfolioValuation_cooldown_gate (e : Env) (b : Z) (s : Storage) :
  paused s = false ->
  (requestPortfolioValuation e b s = Revert CooldownActive <->
   word (lastSubmissionTime s) (msg_sender e) + cooldownSeconds s <= MAX_UINT256 /\
   block_timestamp e < word (lastSubmissionTime s) (msg_sender e) + cooldownSeconds s).
Proof.
  intros Hpaused. rewrite requestPortfolioValuation_eq, Hpaused.
  destruct (Z.gtb_spec (word (lastSubmissionTime s) (msg_sender e) + cooldownSeconds s)
              MAX_UINT256) as [Hgt|Hle].
  { split; [discriminate|lia]. }
  destruct (Z.ltb_spec (block_timestamp e)
              (word (lastSubmissionTime s) (msg_sender e) + cooldownSeconds s)) as [Hlt|Hge].
  { split; [intros _; split; assumption|reflexivity]. }
  split; [|lia].
  repeat match goal with
    | |- (if ?c then _ else _) = _ -> _ => destruct c; [discriminate|]
    end.
  discriminate.
Qed.

(** C4, as the contract has it.  [openNewBatch] does not look at the closed
    flag of the current batch: called by the owner while the contract is not
    paused and the counter is below its maximum, it succeeds, allocates
    [currentBatchId + 1] and marks that id open, leaving every other closed
    flag as it was, whether or not the current batch was closed.  The
    counter never comes back to an earlier id afterwards. *)
Theorem C4_openNewBatch_ignores_closed_flag (e : Env) (s : Storage) :
  msg_sender e = owner s ->
  paused s = false ->
  currentBatchId s < MAX_UINT256 ->
  exists s',
    openNewBatch e s = Ok (tt, s') /\
    currentBatchId s' = currentBatchId s + 1 /\
    flag (isBatchClosed s') (currentBatchId s') = false /\
    (forall b, b <> currentBatchId s + 1 ->
       flag (isBatchClosed s') b = flag (isBatchClosed s) b) /\
    (forall txs, currentBatchId s < currentBatchId (execAll s' txs)).
Proof.
  intros Howner Hpaused Hmax.
  rewrite openNewBatch_eq, Howner, Z.eqb_refl, Hpaused. simpl.
  destruct (Z.gtb_spec (currentBatchId s + 1) MAX_UINT256) as [Hgt|Hle]; [lia|].
  eexists. split; [reflexivity|]. storage_simpl.
  split; [reflexivity|].
  split; [rewrite flag_insert, decide_True; reflexivity|].
  split.
  - intros b Hb. rewrite flag_insert, decide_False; [reflexivity|congruence].
  - intros txs.
    match goal with |- _ < currentBatchId (execAll ?t _) =>
      pose proof (execAll_currentBatchId_le txs t) as Hmono end.
    storage_simpl. lia.
Qed.

(** C5. For a provider who passes the pause, cooldown and well-formedness
    gates, [submitEncryptedNFT] reverts with [BatchNotClosed] exactly when
    the current batch is closed, and otherwise appends the entry to the
    current batch.  No successful submission, by anyone, changes the entries
    of a batch that is closed. *)
Theorem C5_submit_rejects_closed_batch (e : Env) (v w : euint32) (s : Storage) :
  flag (isProvider s) (msg_sender e) = true ->
  paused s = false ->
  respectCooldown e s = Ok (tt, s) ->
  FHE_isInitialized v = true ->
  FHE_isInitialized w = true ->
  (submitEncryptedNFT e v w s = Revert BatchNotClosed <->
   flag (isBatchClosed s) (currentBatchId s) = true) /\
  (flag (isBatchClosed s) (currentBatchId s) = true ->
   exec s (e, Call_submitEncryptedNFT v w) = s) /\
  (flag (isBatchClosed s) (currentBatchId s) = false ->
   exists s', submitEncryptedNFT e v w s = Ok (tt, s') /\
     entriesOf s' (currentBatchId s)
       = entriesOf s (currentBatchId s) ++ [mkEncryptedNFT v w]) /\
  (forall e' v' w' b, flag (isBatchClosed s) b = true ->
     entriesOf (exec s (e', Call_submitEncryptedNFT v' w')) b = entriesOf s b).
Proof.
  intros Hprov Hpaused Hcool Hv Hw.
  assert (Hgate : (word (lastSubmissionTime s) (msg_sender e) + cooldownSeconds s
                     >? MAX_UINT256) = false /\
                  (block_timestamp e
                     <? word (lastSubmissionTime s) (msg_sender e) + cooldownSeconds s) = false).
  { revert Hcool. tx_unfold.
    destruct (_ + _ >? MAX_UINT256); [discriminate|].
    destruct (block_timestamp e <? _); [discriminate|]. auto. }
  destruct Hgate as [Hover Hts].
  assert (Heq : submitEncryptedNFT e v w s =
    if flag (isBatchClosed s) (currentBatchId s) then Revert BatchNotClosed
    else Ok (tt,
      set_events (events s ++
          [NFTSubmitted (msg_sender e) (currentBatchId s)
             (Z.of_nat (length (entriesOf s (currentBatchId s))))])
        (set_lastSubmissionTime
           (<[msg_sender e := block_timestamp e]> (lastSubmissionTime s))
           (set_portfolioEntries
              (<[currentBatchId s := entriesOf s (currentBatchId s) ++ [mkEncryptedNFT v w]]>
                 (portfolioEntries s)) s)))).
  { rewrite submitEncryptedNFT_eq, Hprov, Hpaused, Hover, Hts, Hv, Hw. reflexivity. }
  split; [|split; [|split]].
  - rewrite Heq. destruct (flag (isBatchClosed s) (currentBatchId s)); split; congruence.
  - intros Hclosed. unfold exec. cbn [fst snd run].
    apply commit_revert with (err := BatchNotClosed). rewrite Heq, Hclosed. reflexivity.
  - intros Hopen. rewrite Heq, Hopen. eexists. split; [reflexivity|].
    apply entriesOf_push.
  - intros e' v' w' b Hclosed.
    destruct (exec_entriesOf s (e', Call_submitEncryptedNFT v' w') b) as [Hsame|(_ & Hopen & _)].
    + exact Hsame.
    + congruence.
Qed.

(** C6, as the contract has it.  After deployment the current batch is 1
    and no batch is closed.  In every reachable state [s]: a transaction
    leaves [currentBatchId] alone unless it is a successful [openNewBatch],
    which adds one, so the counter never decreases along any sequence of
    transactions; a batch that is closed stays closed along any sequence of
    transactions; a batch goes from open to closed only by a successful
    [closeCurrentBatch] while it is the current batch; and
    [closeCurrentBatch] on a closed current batch reverts for every caller
    and changes nothing, with [NotOwner] for a caller other than the owner,
    [PausedError] for the owner while paused and [InvalidBatch] for the
    owner while not paused. *)
Theorem C6_batch_lifecycle_monotone (s : Storage) :
  reachable s ->
  (forall e0 b, currentBatchId (deploy e0) = 1 /\ flag (isBatchClosed (deploy e0)) b = false) /\
  (forall e s', openNewBatch e s = Ok (tt, s') -> currentBatchId s' = currentBatchId s + 1) /\
  (forall tx, currentBatchId (exec s tx) = currentBatchId s \/
     (snd tx = Call_openNewBatch /\ currentBatchId (exec s tx) = currentBatchId s + 1)) /\
  (forall txs, currentBatchId s <= currentBatchId (execAll s txs)) /\
  (forall txs b, flag (isBatchClosed s) b = true ->
     flag (isBatchClosed (execAll s txs)) b = true) /\
  (forall tx b, flag (isBatchClosed s) b = false ->
     flag (isBatchClosed (exec s tx)) b = true ->
     snd tx = Call_closeCurrentBatch /\ b = currentBatchId s /\
     run (fst tx) (snd tx) s = Ok (tt, exec s tx)) /\
  (forall e, flag (isBatchClosed s) (currentBatchId s) = true ->
     closeCurrentBatch e s
       = Revert (if negb (msg_sender e =? owner s) then NotOwner
                 else if paused s then PausedError
                 else InvalidBatch) /\
     exec s (e, Call_closeCurrentBatch) = s).
Proof.
  intros Hs.
  split; [|split; [|split; [|split; [|split; [|split]]]]].
  - intros e0 b. rewrite deploy_eq. storage_simpl. split; [reflexivity|].
    unfold flag. rewrite lookup_empty. reflexivity.
  - intros e s' Hopen. rewrite openNewBatch_eq in Hopen.
    repeat match type of Hopen with
      | (if ?c then _ else _) = _ => destruct c; [discriminate|]
      end.
    injection Hopen as <-. reflexivity.
  - intros tx. destruct (exec_currentBatchId s tx) as [Heq|(Hcall & _ & Hinc)]; auto.
  - intros txs. apply execAll_currentBatchId_le.
  - intros txs. revert s Hs. induction txs as [|tx txs IH]; intros s Hs b Hb.
    + exact Hb.
    + rewrite execAll_cons. apply IH.
      * constructor. exact Hs.
      * apply closed_stays_closed; assumption.
  - intros tx b Hopen Hclosed.
    destruct (exec_isBatchClosed s tx b)
      as [Heq|[(Hcall & Hb & _ & _ & Hrun)|(_ & _ & Hfalse)]]; [congruence|auto|congruence].
  - intros e Hclosed.
    assert (Hrev : closeCurrentBatch e s
              = Revert (if negb (msg_sender e =? owner s) then NotOwner
                        else if paused s then PausedError
                        else InvalidBatch)).
    { rewrite closeCurrentBatch_eq, Hclosed.
      destruct (negb (msg_sender e =? owner s)); [reflexivity|].
      destruct (paused s); reflexivity. }
    split; [exact Hrev|]. unfold exec. cbn [fst snd run]. apply (commit_revert _ _ _ Hrev).
Qed.

(** C7, as the contract has it.  While [paused] is set, [openNewBatch],
    [closeCurrentBatch], [submitEncryptedNFT] and [requestPortfolioValuation]
    all revert and leave the storage unchanged.  The error is [PausedError]
    when the caller passes the role modifier that runs before
    [whenNotPaused] (the owner for opening and closing, a provider for
    submitting, anybody for a valuation request); a caller who fails it gets
    [NotOwner] or [NotProvider] instead.  [transferOwnership], [addProvider]
    and [removeProvider] succeed for the owner all the same. *)
Theorem C7_pause_gating (e : Env) (s : Storage) :
  paused s = true ->
  openNewBatch e s
    = Revert (if msg_sender e =? owner s then PausedError else NotOwner) /\
  closeCurrentBatch e s
    = Revert (if msg_sender e =? owner s then PausedError else NotOwner) /\
  (forall v w, submitEncryptedNFT e v w s
    = Revert (if flag (isProvider s) (msg_sender e) then PausedError else NotProvider)) /\
  (forall b, requestPortfolioValuation e b s = Revert PausedError) /\
  exec s (e, Call_openNewBatch) = s /\
  exec s (e, Call_closeCurrentBatch) = s /\
  (forall v w, exec s (e, Call_submitEncryptedNFT v w) = s) /\
  (forall b, exec s (e, Call_requestPortfolioValuation b) = s) /\
  (msg_sender e = owner s ->
   (forall newOwner, exists s', transferOwnership e newOwner s = Ok (tt, s') /\
      owner s' = newOwner /\ paused s' = true) /\
   (forall p, exists s', addProvider e p s = Ok (tt, s') /\
      flag (isProvider s') p = true /\ paused s' = true) /\
   (forall p, exists s', removeProvider e p s = Ok (tt, s') /\
      flag (isProvider s') p = false /\ paused s' = true)).
Proof.
  intros Hpaused.
  assert (Hopen : openNewBatch e s
            = Revert (if msg_sender e =? owner s then PausedError else NotOwner)).
  { rewrite openNewBatch_eq, Hpaused. destruct (msg_sender e =? owner s); reflexivity. }
  assert (Hclose : closeCurrentBatch e s
            = Revert (if msg_sender e =? owner s then PausedError else NotOwner)).
  { rewrite closeCurrentBatch_eq, Hpaused. destruct (msg_sender e =? owner s); reflexivity. }
  assert (Hsubmit : forall v w, submitEncryptedNFT e v w s
            = Revert (if flag (isProvider s) (msg_sender e) then PausedError else NotProvider)).
  { intros v w. rewrite submitEncryptedNFT_eq, Hpaused.
    destruct (flag (isProvider s) (msg_sender e)); reflexivity. }
  assert (Hrequest : forall b, requestPortfolioValuation e b s = Revert PausedError).
  { intros b. rewrite requestPortfolioValuation_eq, Hpaused. reflexivity. }
  split; [exact Hopen|]. split; [exact Hclose|].
  split; [exact Hsubmit|]. split; [exact Hrequest|].
  split; [unfold exec; cbn [fst snd run]; apply (commit_revert _ _ _ Hopen)|].
  split; [unfold exec; cbn [fst snd run]; apply (commit_revert _ _ _ Hclose)|].
  split; [intros v w; unfold exec; cbn [fst snd run];
          apply (commit_revert _ _ _ (Hsubmit v w))|].
  split; [intros b; unfold exec; cbn [fst snd run];
          apply (commit_revert _ _ _ (Hrequest b))|].
  intros Howner. split; [|split].
  - intros newOwner. rewrite transferOwnership_eq, Howner, Z.eqb_refl. simpl.
    eexists. split; [reflexivity|]. storage_simpl. auto.
  - intros p. rewrite addProvider_eq, Howner, Z.eqb_refl. simpl.
    eexists. split; [reflexivity|]. storage_simpl.
    split; [|assumption]. rewrite flag_insert, decide_True; reflexivity.
  - intros p. rewrite removeProvider_eq, Howner, Z.eqb_refl. simpl.
    eexists. split; [reflexivity|]. storage_simpl.
    split; [|assumption]. unfold flag. rewrite lookup_delete_eq. reflexivity.
Qed.

(** C8, as the contract has it.  [myCallback] never looks at its caller: on
    the same storage and arguments, any two transaction environments
    (callers, block times) get the same outcome and commit the same storage.
    Five checks on the storage and the arguments gate finalization, in this
    order: the replay check ([ReplayAttempt]), the non-empty batch check
    ([InvalidBatch]), the state hash check ([StateMismatch]), the proof
    check ([InvalidProof]) and the decoding of the cleartext, which needs 32
    bytes.  The call succeeds exactly when all five pass, and otherwise
    reverts with the error of the first that fails. *)
Theorem C8_myCallback_ignores_caller
    (s : Storage) (rid : Z) (cleartexts proof : bytes) (e1 e2 : Env) :
  myCallback e1 rid cleartexts proof s = myCallback e2 rid cleartexts proof s /\
  exec s (e1, Call_myCallback rid cleartexts proof)
    = exec s (e2, Call_myCallback rid cleartexts proof) /\
  match myCallback e1 rid cleartexts proof s with Ok _ => true | Revert _ => false end
    = negb (processed (contextOf s rid))
      && negb (length (entriesOf s (batchId (contextOf s rid))) =? 0)%nat
      && (_hashCiphertexts
            [FHE_toBytes32 (spec_aggregate (entriesOf s (batchId (contextOf s rid))))]
          =? stateHash (contextOf s rid))
      && FHE_checkSignatures rid cleartexts proof
      && negb (length cleartexts <? 32)%nat /\
  match myCallback e1 rid cleartexts proof s with
  | Ok _ => True
  | Revert err =>
      err = if processed (contextOf s rid) then ReplayAttempt
            else if (length (entriesOf s (batchId (contextOf s rid))) =? 0)%nat
              then InvalidBatch
            else if negb (_hashCiphertexts
                            [FHE_toBytes32
                               (spec_aggregate (entriesOf s (batchId (contextOf s rid))))]
                          =? stateHash (contextOf s rid))
              then StateMismatch
            else if negb (FHE_checkSignatures rid cleartexts proof) then InvalidProof
            else AbiDecodeError
  end.
Proof.
  assert (Hsame : myCallback e1 rid cleartexts proof s = myCallback e2 rid cleartexts proof s).
  { rewrite !myCallback_eq. reflexivity. }
  split; [exact Hsame|].
  split; [unfold exec, commit; cbn [fst snd run]; rewrite Hsame; reflexivity|].
  split.
  2:{ rewrite myCallback_eq. unfold _hashCiphertexts, abi_decode_uint256.
      fold (spec_commitment (entriesOf s (batchId (contextOf s rid)))).
      destruct (processed (contextOf s rid)); [reflexivity|].
      destruct (length (entriesOf s (batchId (contextOf s rid))) =? 0)%nat; [reflexivity|].
      destruct (negb (spec_commitment (entriesOf s (batchId (contextOf s rid)))
                      =? stateHash (contextOf s rid))); [reflexivity|].
      destruct (negb (FHE_checkSignatures rid cleartexts proof)); [reflexivity|].
      destruct (length cleartexts <? 32)%nat; [reflexivity|exact I]. }
  rewrite myCallback_eq. unfold _hashCiphertexts, abi_decode_uint256.
  fold (spec_commitment (entriesOf s (batchId (contextOf s rid)))).
  destruct (processed (contextOf s rid)); [reflexivity|].
  destruct (length (entriesOf s (batchId (contextOf s rid))) =? 0)%nat; [reflexivity|].
  destruct (spec_commitment (entriesOf s (batchId (contextOf s rid)))
            =? stateHash (contextOf s rid)); [|reflexivity].
  destruct (FHE_checkSignatures rid cleartexts proof); [|reflexivity].
  destruct (length cleartexts <? 32)%nat; reflexivity.
Qed.

(** C9. In a reachable state, [myCallback] on a request id under which no
    context is stored reads the all-zero context (not processed, batch 0);
    batch 0 has no entries, so the call reverts with [InvalidBatch],
    whatever the cleartext and the proof are, and the storage is unchanged. *)
Theorem C9_unregistered_request_aborts
    (s : Storage) (e : Env) (rid : Z) (cleartexts proof : bytes) :
  reachable s ->
  decryptionContexts s !! rid = None ->
  processed (contextOf s rid) = false /\
  batchId (contextOf s rid) = 0 /\
  entriesOf s 0 = [] /\
  myCallback e rid cleartexts proof s = Revert InvalidBatch /\
  exec s (e, Call_myCallback rid cleartexts proof) = s.
Proof.
  intros Hs Hnone.
  assert (Hctx : contextOf s rid = emptyContext).
  { unfold contextOf. rewrite Hnone. reflexivity. }
  assert (Hempty : entriesOf s 0 = []).
  { destruct (reachable_ledger_invariant s Hs) as (_ & _ & Hentries).
    destruct (entriesOf s 0) as [|nft l] eqn:Hl; [reflexivity|].
    assert (1 <= 0 <= currentBatchId s) by (apply Hentries; rewrite Hl; discriminate).
    lia. }
  assert (Hrev : myCallback e rid cleartexts proof s = Revert InvalidBatch).
  { rewrite myCallback_eq, Hctx. simpl. rewrite Hempty. reflexivity. }
  rewrite Hctx. repeat split; try assumption.
  unfold exec. cbn [fst snd run]. apply (commit_revert _ _ _ Hrev).
Qed.

(** C10, as the contract has it.  A batch below [currentBatchId] whose
    closed flag is not set stays that way through every sequence of
    transactions: it remains below the current batch and open.  Every
    [requestPortfolioValuation] on it therefore reverts and changes nothing:
    with [PausedError] while the contract is paused; otherwise with the
    overflow panic when the caller's last submission time plus the cooldown
    exceeds the largest uint256; otherwise with [CooldownActive] while the
    block time is below that sum; and otherwise, past both modifiers, with
    [InvalidBatch]. *)
Theorem C10_bypassed_batch_stays_open
    (s : Storage) (b : Z) (txs : list (Env * Call)) (e : Env) :
  b < currentBatchId s ->
  flag (isBatchClosed s) b = false ->
  b < currentBatchId (execAll s txs) /\
  flag (isBatchClosed (execAll s txs)) b = false /\
  requestPortfolioValuation e b (execAll s txs)
    = Revert
        (if paused (execAll s txs) then PausedError
         else if word (lastSubmissionTime (execAll s txs)) (msg_sender e)
                 + cooldownSeconds (execAll s txs) >? MAX_UINT256
           then Panic 17
         else if block_timestamp e
                 <? word (lastSubmissionTime (execAll s txs)) (msg_sender e)
                    + cooldownSeconds (execAll s txs)
           then CooldownActive
         else InvalidBatch) /\
  exec (execAll s txs) (e, Call_requestPortfolioValuation b) = execAll s txs /\
  (paused (execAll s txs) = false ->
   respectCooldown e (execAll s txs) = Ok (tt, execAll s txs) ->
   requestPortfolioValuation e b (execAll s txs) = Revert InvalidBatch).
Proof.
  intros Hbelow Hopen.
  assert (Hstuck : b < currentBatchId (execAll s txs) /\
                   flag (isBatchClosed (execAll s txs)) b = false).
  { revert s Hbelow Hopen. induction txs as [|tx txs IH]; intros s Hbelow Hopen.
    - split; assumption.
    - rewrite execAll_cons. apply IH.
      + pose proof (exec_currentBatchId_le s tx). lia.
      + destruct (exec_isBatchClosed s tx b)
          as [Heq|[(_ & Hb & _)|(_ & _ & Hfalse)]]; [congruence|lia|exact Hfalse]. }
  destruct Hstuck as [Hbelow' Hopen'].
  set (t := execAll s txs) in *.
  assert (Hrev : requestPortfolioValuation e b t
            = Revert
                (if paused t then PausedError
                 else if word (lastSubmissionTime t) (msg_sender e) + cooldownSeconds t
                         >? MAX_UINT256
                   then Panic 17
                 else if block_timestamp e
                         <? word (lastSubmissionTime t) (msg_sender e) + cooldownSeconds t
                   then CooldownActive
                 else InvalidBatch)).
  { rewrite requestPortfolioValuation_eq, Hopen'. simpl.
    destruct (paused t); [reflexivity|].
    destruct (_ + _ >? MAX_UINT256); [reflexivity|].
    destruct (block_timestamp e <? _); reflexivity. }
  split; [assumption|]. split; [assumption|]. split; [exact Hrev|].
  split.
  - unfold exec. cbn [fst snd run]. apply (commit_revert _ _ _ Hrev).
  - intros Hpaused Hcool. rewrite requestPortfolioValuation_eq, Hpaused, Hopen'.
    revert Hcool. tx_unfold.
    destruct (_ + _ >? MAX_UINT256); [discriminate|].
    destruct (block_timestamp e <? _); [discriminate|]. reflexivity.
Qed.

End Claims.

Ltac run_cases c :=
  destruct c; unfold exec, commit, run; cbn [fst snd];
  rewrite ?transferOwnership_eq, ?addProvider_eq, ?removeProvider_eq,
    ?setPaused_eq, ?setCooldownSeconds_eq, ?openNewBatch_eq,
    ?closeCurrentBatch_eq, ?submitEncryptedNFT_eq,
    ?requestPortfolioValuation_eq, ?myCallback_eq;
  repeat match goal with
    | |- context [match abi_decode_uint256 ?c with _ => _ end] =>
        destruct (abi_decode_uint256 c) eqn:?
    | |- context [if ?c then _ else _] => destruct c eqn:?
    end;
  storage_simpl.

Section AccessControl.
Context `{P : Platform}.

Lemma ownerOnly_rejects (e : Env) (c : Call) (s : Storage) :
  ownerOnly c = true -> msg_sender e <> owner s -> run e c s = Revert NotOwner.
Proof.
  intros Hc Hne. apply Z.eqb_neq in Hne.
  destruct c; try discriminate Hc; cbn [run];
    rewrite ?transferOwnership_eq, ?addProvider_eq, ?removeProvider_eq,
      ?setPaused_eq, ?setCooldownSeconds_eq, ?openNewBatch_eq, ?closeCurrentBatch_eq, Hne;
    reflexivity.
Qed.

(** X1. Every function with the [onlyOwner] modifier ([transferOwnership],
    [addProvider], [removeProvider], [setPaused], [setCooldownSeconds],
    [openNewBatch], [closeCurrentBatch]) reverts with [NotOwner] for a caller
    other than the owner, paused or not, and the storage stays as it was. *)
Theorem X1_owner_functions_reject_other_callers (e : Env) (c : Call) (s : Storage) :
  ownerOnly c = true ->
  msg_sender e <> owner s ->
  run e c s = Revert NotOwner /\ exec s (e, c) = s.
Proof.
  intros Hc Hne. pose proof (ownerOnly_rejects e c s Hc Hne) as Hrev.
  split; [exact Hrev|]. unfold exec. cbn [fst snd]. apply (commit_revert _ _ _ Hrev).
Qed.

(** X2. A caller who is neither the owner nor a provider cannot change the
    owner, the provider set, the pause flag, the cooldown, any submission
    time, the current batch id, any closed flag or any entry, whatever
    function it calls. *)
Theorem X2_stranger_cannot_change_ledger (e : Env) (c : Call) (s : Storage) :
  msg_sender e <> owner s ->
  flag (isProvider s) (msg_sender e) = false ->
  owner (exec s (e, c)) = owner s /\
  isProvider (exec s (e, c)) = isProvider s /\
  paused (exec s (e, c)) = paused s /\
  cooldownSeconds (exec s (e, c)) = cooldownSeconds s /\
  lastSubmissionTime (exec s (e, c)) = lastSubmissionTime s /\
  currentBatchId (exec s (e, c)) = currentBatchId s /\
  isBatchClosed (exec s (e, c)) = isBatchClosed s /\
  portfolioEntries (exec s (e, c)) = portfolioEntries s.
Proof.
  intros Hne Hprov. apply Z.eqb_neq in Hne.
  run_cases c;
    try (rewrite Hne in *; discriminate);
    try (rewrite Hprov in *; discriminate);
    repeat apply conj; congruence.
Qed.

(** X3. [transferOwnership] by the owner succeeds for every new owner, the
    zero address included.  From then on every [onlyOwner] function rejects
    every caller other than the new owner, the previous owner among them,
    with [NotOwner], and lets the new owner past the owner check: none of
    them reverts with [NotOwner] for the new owner, and the five that have
    no other gate ([transferOwnership], [addProvider], [removeProvider],
    [setPaused], [setCooldownSeconds]) succeed. *)
Theorem X3_ownership_handover (e : Env) (newOwner : Z) (s : Storage) :
  msg_sender e = owner s ->
  exists s',
    transferOwnership e newOwner s = Ok (tt, s') /\
    owner s' = newOwner /\
    (forall e' c, ownerOnly c = true -> msg_sender e' <> newOwner ->
       run e' c s' = Revert NotOwner) /\
    (forall e' b, msg_sender e' = newOwner ->
       exists s'', setPaused e' b s' = Ok (tt, s'') /\ paused s'' = b /\ owner s'' = newOwner) /\
    (forall e' c, ownerOnly c = true -> msg_sender e' = newOwner ->
       run e' c s' <> Revert NotOwner /\
       (c <> Call_openNewBatch -> c <> Call_closeCurrentBatch ->
        exists s'', run e' c s' = Ok (tt, s''))).
Proof.
  intros Howner. rewrite transferOwnership_eq, Howner, Z.eqb_refl. simpl.
  eexists. split; [reflexivity|]. storage_simpl.
  split; [reflexivity|]. split; [|split].
  - intros e' c Hc Hne. apply ownerOnly_rejects; [exact Hc|exact Hne].
  - intros e' b He'. rewrite setPaused_eq. storage_simpl. rewrite He', Z.eqb_refl. simpl.
    eexists. split; [reflexivity|]. storage_simpl. auto.
  - intros e' c Hc He'.
    destruct c; try discriminate Hc; cbn [run];
      rewrite ?transferOwnership_eq, ?addProvider_eq, ?removeProvider_eq,
        ?setPaused_eq, ?setCooldownSeconds_eq, ?openNewBatch_eq, ?closeCurrentBatch_eq;
      storage_simpl; rewrite He', Z.eqb_refl; simpl;
      (split; [|intros Hno Hnc; try congruence; eexists; reflexivity]);
      repeat match goal with
        | |- (if ?c then _ else _) <> _ => destruct c
        end; discriminate.
Qed.

(** X4. The provider set is changed by the owner's [addProvider] and
    [removeProvider] and by nothing else, one address at a time.  After the
    owner adds [p] it is a provider; after the owner removes it again it is
    not, every other address is as before, and a submission by [p] reverts
    with [NotProvider]. *)
Theorem X4_provider_registry (e : Env) (p : Z) (s : Storage) :
  msg_sender e = owner s ->
  (forall tx q, flag (isProvider (exec s tx)) q <> flag (isProvider s) q ->
     msg_sender (fst tx) = owner s /\
     (snd tx = Call_addProvider q \/ snd tx = Call_removeProvider q)) /\
  exists s1,
    addProvider e p s = Ok (tt, s1) /\
    flag (isProvider s1) p = true /\
    (forall q, q <> p -> flag (isProvider s1) q = flag (isProvider s) q) /\
    exists s2,
      removeProvider e p s1 = Ok (tt, s2) /\
      flag (isProvider s2) p = false /\
      (forall q, q <> p -> flag (isProvider s2) q = flag (isProvider s) q) /\
      (forall e' v w, msg_sender e' = p ->
         submitEncryptedNFT e' v w s2 = Revert NotProvider).
Proof.
  intros Howner. split.
  - intros tx q. exec_cases tx; try congruence.
    + destruct (decide (provider = q)) as [->|Hq].
      * intros _. split; [|left; reflexivity].
        apply negb_false_iff, Z.eqb_eq in Heqb. exact Heqb.
      * unfold flag. rewrite lookup_insert_ne by exact Hq. congruence.
    + destruct (decide (provider = q)) as [->|Hq].
      * intros _. split; [|right; reflexivity].
        apply negb_false_iff, Z.eqb_eq in Heqb. exact Heqb.
      * unfold flag. rewrite lookup_delete_ne by exact Hq. congruence.
  - rewrite addProvider_eq, Howner, Z.eqb_refl. simpl.
    eexists. split; [reflexivity|]. storage_simpl.
    split; [unfold flag; rewrite lookup_insert_eq; reflexivity|].
    split; [intros q Hq; unfold flag; rewrite lookup_insert_ne by congruence; reflexivity|].
    rewrite removeProvider_eq. storage_simpl. rewrite Howner, Z.eqb_refl. simpl.
    eexists. split; [reflexivity|]. storage_simpl.
    split; [unfold flag; rewrite lookup_delete_eq; reflexivity|].
    split.
    + intros q Hq. unfold flag.
      rewrite lookup_delete_ne by congruence. rewrite lookup_insert_ne by congruence.
      reflexivity.
    + intros e' v w He'. rewrite submitEncryptedNFT_eq. storage_simpl.
      rewrite He'. unfold flag. rewrite lookup_delete_eq. reflexivity.
Qed.

End AccessControl.

Section Entries.
Context `{P : Platform}.

Lemma exec_entries_extend (s : Storage) (tx : Env * Call) (b : Z) :
  exists more, entriesOf (exec s tx) b = entriesOf s b ++ more.
Proof.
  destruct (exec_entriesOf s tx b) as [Hsame|(_ & _ & v & w & _ & Happ)].
  - exists []. rewrite Hsame, app_nil_r. reflexivity.
  - eexists. exact Happ.
Qed.

(** X5. Entries are append-only: through any sequence of transactions the
    entries a batch had are still there, in the same positions, followed by
    whatever was submitted since; nothing is removed or reordered. *)
Theorem X5_entries_append_only (s : Storage) (txs : list (Env * Call)) (b : Z) :
  (exists more, entriesOf (execAll s txs) b = entriesOf s b ++ more) /\
  (forall i nft, entriesOf s b !! i = Some nft ->
     entriesOf (execAll s txs) b !! i = Some nft) /\
  (length (entriesOf s b) <= length (entriesOf (execAll s txs) b))%nat.
Proof.
  assert (Hext : exists more, entriesOf (execAll s txs) b = entriesOf s b ++ more).
  { revert s. induction txs as [|tx txs IH]; intros s.
    - exists []. rewrite app_nil_r. reflexivity.
    - rewrite execAll_cons. destruct (IH (exec s tx)) as [more2 H2].
      destruct (exec_entries_extend s tx b) as [more1 H1].
      exists (more1 ++ more2). rewrite H2, H1, app_assoc. reflexivity. }
  destruct Hext as [more Hmore]. split; [exists more; exact Hmore|]. split.
  - intros i nft Hi. rewrite Hmore. apply lookup_app_l_Some. exact Hi.
  - rewrite Hmore, length_app. lia.
Qed.

End Entries.

Section Cooldown.
Context `{P : Platform}.

Lemma word_insert (m : gmap Z Z) (k k' v : Z) :
  word (<[k := v]> m) k' = if decide (k = k') then v else word m k'.
Proof.
  unfold word. rewrite lookup_insert. destruct (decide (k = k')); reflexivity.
Qed.

(** What a successful submission tells about the state it ran in, and the
    state it leaves. *)
Lemma submitEncryptedNFT_ok (e : Env) (v w : euint32) (s s' : Storage) :
  submitEncryptedNFT e v w s = Ok (tt, s') ->
  flag (isProvider s) (msg_sender e) = true /\
  paused s = false /\
  flag (isBatchClosed s) (currentBatchId s) = false /\
  s' = set_events (events s ++
         [NFTSubmitted (msg_sender e) (currentBatchId s)
            (Z.of_nat (length (entriesOf s (currentBatchId s))))])
       (set_lastSubmissionTime
          (<[msg_sender e := block_timestamp e]> (lastSubmissionTime s))
          (set_portfolioEntries
             (<[currentBatchId s := entriesOf s (currentBatchId s) ++ [mkEncryptedNFT v w]]>
                (portfolioEntries s)) s)).
Proof.
  rewrite submitEncryptedNFT_eq.
  destruct (flag (isProvider s) (msg_sender e)); [|discriminate].
  destruct (paused s); [discriminate|]. simpl.
  repeat match goal with
    | |- (if ?c then _ else _) = _ -> _ => destruct c eqn:?; [discriminate|]
    end.
  intros H. injection H as <-. auto.
Qed.

Lemma entriesOf_written (t : Storage) (b : Z) (l : list EncryptedNFT)
    (m : gmap Z (list EncryptedNFT)) :
  portfolioEntries t = <[b := l]> m -> entriesOf t b = l.
Proof. unfold entriesOf. intros ->. rewrite lookup_insert_eq. reflexivity. Qed.

Lemma submitEncryptedNFT_post (e : Env) (v w : euint32) (s s' : Storage) :
  submitEncryptedNFT e v w s = Ok (tt, s') ->
  isProvider s' = isProvider s /\
  paused s' = paused s /\
  cooldownSeconds s' = cooldownSeconds s /\
  currentBatchId s' = currentBatchId s /\
  isBatchClosed s' = isBatchClosed s /\
  lastSubmissionTime s' = <[msg_sender e := block_timestamp e]> (lastSubmissionTime s) /\
  entriesOf s' (currentBatchId s) = entriesOf s (currentBatchId s) ++ [mkEncryptedNFT v w].
Proof.
  intros Hok. destruct (submitEncryptedNFT_ok e v w s s' Hok) as (_ & _ & _ & ->).
  storage_simpl. repeat (split; [reflexivity|]).
  eapply entriesOf_written. storage_simpl. reflexivity.
Qed.

(** X6. The submission cooldown is per address and starts at the block time
    of the last successful submission: until that time plus
    [cooldownSeconds] the same caller's submissions, and its valuation
    requests too, revert with [CooldownActive]; from then on a well-formed
    submission is accepted and lands right after the first one.  Other
    addresses keep their own submission time. *)
Theorem X6_submission_cooldown_window
    (e e' : Env) (v w v' w' : euint32) (s s' : Storage) :
  submitEncryptedNFT e v w s = Ok (tt, s') ->
  msg_sender e' = msg_sender e ->
  block_timestamp e + cooldownSeconds s <= MAX_UINT256 ->
  word (lastSubmissionTime s') (msg_sender e) = block_timestamp e /\
  (forall a, a <> msg_sender e ->
     word (lastSubmissionTime s') a = word (lastSubmissionTime s) a) /\
  (block_timestamp e' < block_timestamp e + cooldownSeconds s ->
     submitEncryptedNFT e' v' w' s' = Revert CooldownActive /\
     forall b, requestPortfolioValuation e' b s' = Revert CooldownActive) /\
  (block_timestamp e + cooldownSeconds s <= block_timestamp e' ->
     FHE_isInitialized v' = true -> FHE_isInitialized w' = true ->
     exists s'', submitEncryptedNFT e' v' w' s' = Ok (tt, s'') /\
       entriesOf s'' (currentBatchId s)
         = entriesOf s (currentBatchId s) ++ [mkEncryptedNFT v w; mkEncryptedNFT v' w']).
Proof.
  intros Hok Hsame Hmax.
  destruct (submitEncryptedNFT_ok e v w s s' Hok) as (Hprov & Hpaused & Hopen & _).
  destruct (submitEncryptedNFT_post e v w s s' Hok)
    as (Hprov' & Hpaused' & Hcd & Hcur & Hclosed & Hlast & Hentries).
  assert (Hword : word (lastSubmissionTime s') (msg_sender e) = block_timestamp e).
  { rewrite Hlast, word_insert, decide_True; reflexivity. }
  split; [exact Hword|].
  split; [intros a Ha; rewrite Hlast, word_insert, decide_False; [reflexivity|congruence]|].
  split.
  - intros Hearly. split; [|intros b].
    + rewrite submitEncryptedNFT_eq, Hsame, Hword, Hprov', Hpaused', Hcd, Hprov, Hpaused.
      simpl.
      destruct (Z.gtb_spec (block_timestamp e + cooldownSeconds s) MAX_UINT256); [lia|].
      destruct (Z.ltb_spec (block_timestamp e') (block_timestamp e + cooldownSeconds s));
        [reflexivity|lia].
    + rewrite requestPortfolioValuation_eq, Hsame, Hword, Hpaused', Hcd, Hpaused.
      destruct (Z.gtb_spec (block_timestamp e + cooldownSeconds s) MAX_UINT256); [lia|].
      destruct (Z.ltb_spec (block_timestamp e') (block_timestamp e + cooldownSeconds s));
        [reflexivity|lia].
  - intros Hlate Hv' Hw'.
    rewrite submitEncryptedNFT_eq, Hsame, Hword, Hprov', Hpaused', Hcd, Hclosed, Hcur,
      Hprov, Hpaused, Hv', Hw', Hopen, Hentries.
    simpl.
    destruct (Z.gtb_spec (block_timestamp e + cooldownSeconds s) MAX_UINT256); [lia|].
    destruct (Z.ltb_spec (block_timestamp e') (block_timestamp e + cooldownSeconds s)); [lia|].
    eexists. split; [reflexivity|].
    etransitivity; [eapply entriesOf_written; storage_simpl; reflexivity|].
    rewrite <- app_assoc. reflexivity.
Qed.

(** X7. The cooldown deadline is computed in checked uint256 arithmetic: when
    the caller's last submission time plus [cooldownSeconds] exceeds the
    largest uint256, a valuation request, and a provider's submission,
    revert with the arithmetic panic 0x11 instead of [CooldownActive]. *)
Theorem X7_cooldown_overflow_panics (e : Env) (s : Storage) :
  paused s = false ->
  MAX_UINT256 < word (lastSubmissionTime s) (msg_sender e) + cooldownSeconds s ->
  (forall b, requestPortfolioValuation e b s = Revert (Panic 17)) /\
  (flag (isProvider s) (msg_sender e) = true ->
   forall v w, submitEncryptedNFT e v w s = Revert (Panic 17)).
Proof.
  intros Hpaused Hover.
  assert (Hgt : (word (lastSubmissionTime s) (msg_sender e) + cooldownSeconds s
                   >? MAX_UINT256) = true).
  { destruct (Z.gtb_spec (word (lastSubmissionTime s) (msg_sender e) + cooldownSeconds s)
                MAX_UINT256); [reflexivity|lia]. }
  split.
  - intros b. rewrite requestPortfolioValuation_eq, Hpaused, Hgt. reflexivity.
  - intros Hprov v w. rewrite submitEncryptedNFT_eq, Hprov, Hpaused, Hgt. reflexivity.
Qed.

End Cooldown.

Section Contexts.
Context `{P : Platform}.

Lemma contexts_invariant_deploy (e : Env) : contexts_invariant (deploy e).
Proof.
  rewrite deploy_eq. intros rid ctx. storage_simpl. rewrite lookup_empty. discriminate.
Qed.

Lemma closed_entries_exec (s : Storage) (tx : Env * Call) (b : Z) :
  flag (isBatchClosed s) b = true -> entriesOf (exec s tx) b = entriesOf s b.
Proof.
  intros Hb. destruct (exec_entriesOf s tx b) as [Hsame|(_ & Hopen & _)]; congruence.
Qed.

Lemma contexts_invariant_exec (s : Storage) (tx : Env * Call) :
  reachable s -> contexts_invariant s -> contexts_invariant (exec s tx).
Proof.
  intros Hs Hinv rid ctx Hctx.
  assert (Hkeep : forall c, flag (isBatchClosed s) (batchId c) = true ->
            entriesOf s (batchId c) <> [] ->
            stateHash c = spec_commitment (entriesOf s (batchId c)) ->
            flag (isBatchClosed (exec s tx)) (batchId c) = true /\
            entriesOf (exec s tx) (batchId c) <> [] /\
            stateHash c = spec_commitment (entriesOf (exec s tx) (batchId c))).
  { intros c Hclosed Hne Hhash.
    rewrite (closed_entries_exec s tx _ Hclosed).
    split; [apply closed_stays_closed; assumption|]. split; assumption. }
  destruct (exec_decryptionContexts s tx rid)
    as [Heq|[(b & _ & _ & Hclosed & Hne & Hnew)|(c & p & _ & _ & Hne & Hnew)]].
  - rewrite Heq in Hctx. destruct (Hinv rid ctx Hctx) as (H1 & H2 & H3).
    apply Hkeep; assumption.
  - rewrite Hnew in Hctx. injection Hctx as <-.
    apply (Hkeep (mkDecryptionContext b (spec_commitment (entriesOf s b)) false));
      [exact Hclosed|exact Hne|reflexivity].
  - rewrite Hnew in Hctx. injection Hctx as <-.
    destruct (decryptionContexts s !! rid) as [c0|] eqn:Hold.
    + assert (Hc0 : contextOf s rid = c0) by (unfold contextOf; rewrite Hold; reflexivity).
      rewrite Hc0 in *. destruct (Hinv rid c0 Hold) as (H1 & H2 & H3).
      apply (Hkeep (set_processed true c0)); assumption.
    + exfalso. assert (Hc0 : contextOf s rid = emptyContext)
        by (unfold contextOf; rewrite Hold; reflexivity).
      rewrite Hc0 in Hne. simpl in Hne.
      destruct (reachable_ledger_invariant s Hs) as (_ & _ & Hentries).
      specialize (Hentries 0 Hne). lia.
Qed.

Lemma reachable_contexts_invariant (s : Storage) :
  reachable s -> contexts_invariant s.
Proof.
  induction 1 as [e|s tx Hs IH].
  - apply contexts_invariant_deploy.
  - apply contexts_invariant_exec; assumption.
Qed.

(** X8. In every state reachable from the constructor the state-hash check
    of [myCallback] passes: each stored context belongs to a closed,
    non-empty batch whose entries can no longer change, so its [stateHash]
    is the commitment recomputed now.  [myCallback] therefore never reverts
    with [StateMismatch], and on a stored context it succeeds exactly when
    the context is unprocessed, the proof verifies and the cleartext has at
    least 32 bytes. *)
Theorem X8_state_hash_check_never_fails
    (s : Storage) (e : Env) (rid : Z) (cleartexts proof : bytes) :
  reachable s ->
  myCallback e rid cleartexts proof s <> Revert StateMismatch /\
  (forall ctx, decryptionContexts s !! rid = Some ctx ->
     _hashCiphertexts [FHE_toBytes32 (spec_aggregate (entriesOf s (batchId ctx)))]
       = stateHash ctx /\
     myCallback e rid cleartexts proof s <> Revert InvalidBatch /\
     match myCallback e rid cleartexts proof s with Ok _ => true | Revert _ => false end
       = negb (processed ctx) && FHE_checkSignatures rid cleartexts proof
         && negb (length cleartexts <? 32)%nat).
Proof.
  intros Hs.
  pose proof (reachable_contexts_invariant s Hs) as Hinv.
  assert (Hstored : forall ctx, decryptionContexts s !! rid = Some ctx ->
            contextOf s rid = ctx /\
            (length (entriesOf s (batchId ctx)) =? 0)%nat = false /\
            (spec_commitment (entriesOf s (batchId ctx)) =? stateHash ctx) = true).
  { intros ctx Hctx. destruct (Hinv rid ctx Hctx) as (_ & Hne & Hhash).
    split; [unfold contextOf; rewrite Hctx; reflexivity|]. split.
    - destruct (entriesOf s (batchId ctx)); [congruence|reflexivity].
    - rewrite Hhash. apply Z.eqb_refl. }
  split.
  - destruct (decryptionContexts s !! rid) as [ctx|] eqn:Hctx.
    + destruct (Hstored ctx eq_refl) as (Hc & Hlen & Hhash).
      rewrite myCallback_eq, Hc, Hlen, Hhash. simpl.
      repeat match goal with
        | |- (if ?c then _ else _) <> _ => destruct c; [discriminate|]
        end.
      unfold abi_decode_uint256. destruct (length cleartexts <? 32)%nat; discriminate.
    + destruct (reachable_ledger_invariant s Hs) as (_ & _ & Hentries).
      rewrite myCallback_eq. unfold contextOf. rewrite Hctx. simpl.
      destruct (entriesOf s 0) as [|nft l] eqn:Hl; [simpl; discriminate|].
      assert (1 <= 0 <= currentBatchId s) by (apply Hentries; rewrite Hl; discriminate).
      lia.
  - intros ctx Hctx. destruct (Hstored ctx Hctx) as (Hc & Hlen & Hhash).
    split; [apply Z.eqb_eq; exact Hhash|].
    rewrite myCallback_eq, Hc, Hlen, Hhash. unfold abi_decode_uint256. simpl.
    destruct (processed ctx); simpl; [split; [discriminate|reflexivity]|].
    destruct (FHE_checkSignatures rid cleartexts proof); simpl;
      [|split; [discriminate|reflexivity]].
    destruct (length cleartexts <? 32)%nat; simpl; split; (discriminate || reflexivity).
Qed.

(** X13. In a reachable state a successful [openNewBatch] hands out a batch
    that is open, has no entries, and is the batch of no stored decryption
    context. *)
Theorem X13_new_batch_is_empty_and_open (e : Env) (s s' : Storage) :
  reachable s ->
  openNewBatch e s = Ok (tt, s') ->
  currentBatchId s' = currentBatchId s + 1 /\
  flag (isBatchClosed s') (currentBatchId s') = false /\
  entriesOf s' (currentBatchId s') = [] /\
  (forall rid ctx, decryptionContexts s' !! rid = Some ctx ->
     batchId ctx <> currentBatchId s').
Proof.
  intros Hs Hopen.
  destruct (reachable_ledger_invariant s Hs) as (_ & Hclosed & Hentries).
  pose proof (reachable_contexts_invariant s Hs) as Hinv.
  rewrite openNewBatch_eq in Hopen.
  repeat match type of Hopen with
    | (if ?c then _ else _) = _ => destruct c; [discriminate|]
    end.
  injection Hopen as <-. storage_simpl.
  split; [reflexivity|].
  split; [rewrite flag_insert, decide_True; reflexivity|].
  split.
  - unfold entriesOf. storage_simpl.
    destruct (portfolioEntries s !! (currentBatchId s + 1)) as [[|nft l]|] eqn:Hl;
      [reflexivity| |reflexivity].
    assert (1 <= currentBatchId s + 1 <= currentBatchId s).
    { apply Hentries. unfold entriesOf. rewrite Hl. discriminate. }
    lia.
  - intros rid ctx Hctx Heq. destruct (Hinv rid ctx Hctx) as (Hc & _).
    specialize (Hclosed _ Hc). lia.
Qed.

(** X14. A batch that was closed while empty can never be valued: in a
    reachable state its entries stay empty through every sequence of
    transactions, so every [requestPortfolioValuation] on it reverts and
    changes nothing, with [InvalidBatch] once past the pause and cooldown
    modifiers. *)
Theorem X14_closed_empty_batch_never_valued
    (s : Storage) (b : Z) (txs : list (Env * Call)) (e : Env) :
  reachable s ->
  flag (isBatchClosed s) b = true ->
  entriesOf s b = [] ->
  entriesOf (execAll s txs) b = [] /\
  (exists err, requestPortfolioValuation e b (execAll s txs) = Revert err) /\
  exec (execAll s txs) (e, Call_requestPortfolioValuation b) = execAll s txs /\
  (paused (execAll s txs) = false ->
   respectCooldown e (execAll s txs) = Ok (tt, execAll s txs) ->
   requestPortfolioValuation e b (execAll s txs) = Revert InvalidBatch).
Proof.
  intros Hs Hclosed Hempty.
  assert (Hstill : entriesOf (execAll s txs) b = []).
  { rewrite closed_batch_entries_frozen; assumption. }
  set (t := execAll s txs) in *.
  assert (Hrev : exists err, requestPortfolioValuation e b t = Revert err).
  { rewrite requestPortfolioValuation_eq, Hstill. simpl.
    repeat match goal with
      | |- exists _, (if ?c then _ else _) = _ => destruct c; [eexists; reflexivity|]
      end.
    eexists; reflexivity. }
  split; [exact Hstill|]. split; [exact Hrev|]. split.
  - destruct Hrev as [err Hrev]. unfold exec. cbn [fst snd run].
    apply (commit_revert _ _ _ Hrev).
  - intros Hpaused Hcool. rewrite requestPortfolioValuation_eq, Hpaused, Hstill.
    revert Hcool. tx_unfold.
    destruct (_ + _ >? MAX_UINT256); [discriminate|].
    destruct (block_timestamp e <? _); [discriminate|]. simpl.
    destruct (negb (flag (isBatchClosed t) b)); reflexivity.
Qed.

End Contexts.

Section AggregateValue.
Context `{P : Platform}.
Variable dec : euint32 -> Z.
Hypothesis dec_asEuint32 : forall n, dec (FHE_asEuint32 n) = n mod 2 ^ 32.
Hypothesis dec_add : forall a c, dec (FHE_add a c) = (dec a + dec c) mod 2 ^ 32.
Hypothesis dec_mul : forall a c, dec (FHE_mul a c) = (dec a * dec c) mod 2 ^ 32.

Lemma dec_fold_reduced (l : list EncryptedNFT) (acc : euint32) :
  dec acc mod 2 ^ 32 = dec acc ->
  dec (fold_left (fun total nft =>
         FHE_add total (FHE_mul (encryptedValue nft) (encryptedWeight nft))) l acc) mod 2 ^ 32
  = dec (fold_left (fun total nft =>
         FHE_add total (FHE_mul (encryptedValue nft) (encryptedWeight nft))) l acc).
Proof.
  revert acc. induction l as [|nft l IH]; intros acc Hacc; simpl.
  - exact Hacc.
  - apply IH. rewrite dec_add. apply Z.mod_mod. apply Z.pow_nonzero; lia.
Qed.

Lemma dec_fold_sum (l : list EncryptedNFT) (acc : euint32) :
  dec (fold_left (fun total nft =>
         FHE_add total (FHE_mul (encryptedValue nft) (encryptedWeight nft))) l acc) mod 2 ^ 32
  = (dec acc + weightedSum dec l) mod 2 ^ 32.
Proof.
  assert (HM : 2 ^ 32 <> 0) by (apply Z.pow_nonzero; lia).
  revert acc. induction l as [|nft l IH]; intros acc; simpl.
  - rewrite Z.add_0_r. reflexivity.
  - rewrite IH, dec_add, dec_mul.
    rewrite Z.add_mod_idemp_l by exact HM.
    rewrite <- Z.add_assoc.
    rewrite <- (Z.add_mod_idemp_r (dec acc)) by exact HM.
    rewrite Z.add_mod_idemp_l by exact HM.
    rewrite Z.add_mod_idemp_r by exact HM.
    reflexivity.
Qed.

Lemma dec_spec_aggregate (l : list EncryptedNFT) :
  dec (spec_aggregate l) = weightedSum dec l mod 2 ^ 32.
Proof.
  assert (HM : 2 ^ 32 <> 0) by (apply Z.pow_nonzero; lia).
  unfold spec_aggregate.
  rewrite <- dec_fold_reduced by (rewrite dec_asEuint32; apply Z.mod_mod; exact HM).
  rewrite dec_fold_sum, dec_asEuint32, Z.add_mod_idemp_l by exact HM.
  reflexivity.
Qed.

End AggregateValue.

Section AggregateClaim.
Context `{P : Platform}.

(** X9. Aggregation is the weighted sum: if decryption turns [asEuint32],
    [add] and [mul] into the constant, the sum and the product modulo 2^32,
    then the ciphertext that a successful [requestPortfolioValuation]
    computes, and to whose hash it commits in the stored context, decrypts
    to the sum of value times weight over the batch's entries, modulo
    2^32. *)
Theorem X9_aggregate_decrypts_to_weighted_sum
    (dec : euint32 -> Z) (e : Env) (b : Z) (s s' : Storage) :
  (forall n, dec (FHE_asEuint32 n) = n mod 2 ^ 32) ->
  (forall a c, dec (FHE_add a c) = (dec a + dec c) mod 2 ^ 32) ->
  (forall a c, dec (FHE_mul a c) = (dec a * dec c) mod 2 ^ 32) ->
  requestPortfolioValuation e b s = Ok (tt, s') ->
  exists total,
    for_range 0 (length (entriesOf s b)) (accumulate b) (FHE_asEuint32 0) s = Ok (total, s) /\
    stateHash (contextOf s' (oracle_requestId e)) = _hashCiphertexts [FHE_toBytes32 total] /\
    dec total = weightedSum dec (entriesOf s b) mod 2 ^ 32.
Proof.
  intros Hzero Hadd Hmul Hreq.
  exists (spec_aggregate (entriesOf s b)).
  split; [apply aggregation_loop|]. split.
  - rewrite requestPortfolioValuation_eq in Hreq.
    repeat match type of Hreq with
      | (if ?c then _ else _) = _ => destruct c; [discriminate|]
      end.
    injection Hreq as <-. unfold contextOf. storage_simpl.
    rewrite lookup_insert_eq. reflexivity.
  - apply dec_spec_aggregate; assumption.
Qed.

End AggregateClaim.

Section NeverRead.
Context `{P : Platform}.

(** X11. No function reads [lastDecryptionRequestTime]: whatever that
    mapping holds, every call reverts with the same error or succeeds with
    the same storage apart from that mapping. *)
Theorem X11_lastDecryptionRequestTime_is_never_read
    (e : Env) (c : Call) (s : Storage) (m : gmap Z Z) :
  match run e c s, run e c (set_lastDecryptionRequestTime m s) with
  | Ok (_, s1), Ok (_, s2) => withoutRequestTimes s1 = withoutRequestTimes s2
  | Revert err1, Revert err2 => err1 = err2
  | _, _ => False
  end.
Proof.
  destruct c; cbn [run];
    rewrite ?transferOwnership_eq, ?addProvider_eq, ?removeProvider_eq,
      ?setPaused_eq, ?setCooldownSeconds_eq, ?openNewBatch_eq,
      ?closeCurrentBatch_eq, ?submitEncryptedNFT_eq,
      ?requestPortfolioValuation_eq, ?myCallback_eq;
    unfold entriesOf, contextOf, withoutRequestTimes; storage_simpl;
    repeat match goal with
      | |- context [match abi_decode_uint256 ?c with _ => _ end] =>
          destruct (abi_decode_uint256 c)
      | |- context [if ?c then _ else _] => destruct c
      end;
    reflexivity.
Qed.

End NeverRead.

Lemma be_uint_fold_bounds (bs : list byte) (acc : Z) :
  0 <= acc ->
  0 <= fold_left (fun acc b => acc * 256 + Z.of_N (Byte.to_N b)) bs acc
    < (acc + 1) * 256 ^ Z.of_nat (length bs).
Proof.
  revert acc. induction bs as [|b bs IH]; intros acc Hacc.
  - simpl. lia.
  - cbn [fold_left length].
    pose proof (Byte.to_N_bounded b) as Hb.
    assert (Hb' : 0 <= Z.of_N (Byte.to_N b) <= 255) by lia.
    specialize (IH (acc * 256 + Z.of_N (Byte.to_N b)) ltac:(lia)).
    rewrite Nat2Z.inj_succ, Z.pow_succ_r by lia.
    assert (0 < 256 ^ Z.of_nat (length bs)) by (apply Z.pow_pos_nonneg; lia).
    nia.
Qed.

(** X12. Decoding the cleartext as a uint256: it reverts exactly on fewer
    than 32 bytes, the decoded value fits a uint256, and bytes after the
    first 32 are ignored. *)
Theorem X12_abi_decode_uint256_bounds (cleartexts extra : list byte) :
  (abi_decode_uint256 cleartexts = Revert AbiDecodeError <-> (length cleartexts < 32)%nat) /\
  (forall v, abi_decode_uint256 cleartexts = Ok v -> 0 <= v <= MAX_UINT256) /\
  ((32 <= length cleartexts)%nat ->
   abi_decode_uint256 (cleartexts ++ extra) = abi_decode_uint256 cleartexts).
Proof.
  unfold abi_decode_uint256. split; [|split].
  - destruct (Nat.ltb_spec (length cleartexts) 32); split; (congruence || lia).
  - intros v. destruct (Nat.ltb_spec (length cleartexts) 32) as [|Hlen]; [discriminate|].
    intros Hv. injection Hv as <-. unfold be_uint.
    pose proof (be_uint_fold_bounds (take 32 cleartexts) 0 ltac:(lia)) as Hb.
    rewrite length_take, Nat.min_l in Hb by exact Hlen.
    change ((0 + 1) * 256 ^ Z.of_nat 32) with (MAX_UINT256 + 1) in Hb. lia.
  - intros Hlen. rewrite length_app.
    destruct (Nat.ltb_spec (length cleartexts + length extra) 32); [lia|].
    destruct (Nat.ltb_spec (length cleartexts) 32); [lia|].
    rewrite take_app_le by exact Hlen. reflexivity.
Qed.

Section Log.
Context `{P : Platform}.

Lemma openedBatches_snoc (log : list Event) (ev : Event) :
  openedBatches (log ++ [ev])
  = openedBatches log ++ match ev with BatchOpened b => [b] | _ => [] end.
Proof. unfold openedBatches. rewrite omap_app. destruct ev; reflexivity. Qed.

Lemma closedBatches_snoc (log : list Event) (ev : Event) :
  closedBatches (log ++ [ev])
  = closedBatches log ++ match ev with BatchClosed b => [b] | _ => [] end.
Proof. unfold closedBatches. rewrite omap_app. destruct ev; reflexivity. Qed.

Lemma submittedIndices_snoc (batch : Z) (log : list Event) (ev : Event) :
  submittedIndices batch (log ++ [ev])
  = submittedIndices batch log ++
    match ev with
    | NFTSubmitted _ b i => if b =? batch then [i] else []
    | _ => []
    end.
Proof.
  unfold submittedIndices. rewrite omap_app. destruct ev; try reflexivity.
  simpl. destruct (batch0 =? batch); reflexivity.
Qed.

Lemma openedBatches_exec (s : Storage) (tx : Env * Call) :
  reachable s ->
  openedBatches (events s) = Z.of_nat <$> seq 1 (Z.to_nat (currentBatchId s)) ->
  openedBatches (events (exec s tx))
  = Z.of_nat <$> seq 1 (Z.to_nat (currentBatchId (exec s tx))).
Proof.
  intros Hs IH. destruct (reachable_ledger_invariant s Hs) as (Hcur & _).
  exec_cases tx; rewrite ?openedBatches_snoc, ?app_nil_r; try exact IH.
  rewrite IH.
  replace (Z.to_nat (currentBatchId s + 1)) with (S (Z.to_nat (currentBatchId s))) by lia.
  rewrite seq_S, fmap_app. simpl. do 2 f_equal. lia.
Qed.

Lemma submittedIndices_exec (s : Storage) (tx : Env * Call) (b : Z) :
  submittedIndices b (events s) = Z.of_nat <$> seq 0 (length (entriesOf s b)) ->
  submittedIndices b (events (exec s tx))
  = Z.of_nat <$> seq 0 (length (entriesOf (exec s tx) b)).
Proof.
  intros IH.
  exec_cases tx; rewrite ?submittedIndices_snoc, ?app_nil_r; try exact IH.
  destruct (Z.eqb_spec (currentBatchId s) b) as [<-|Hne].
  - match goal with |- context [entriesOf ?t (currentBatchId s)] =>
      lazymatch t with
      | s => fail
      | _ => replace (entriesOf t (currentBatchId s))
               with (entriesOf s (currentBatchId s)
                     ++ [mkEncryptedNFT encryptedValue0 encryptedWeight0])
               by (symmetry; eapply entriesOf_written; storage_simpl; reflexivity)
      end
    end.
    rewrite IH, length_app. simpl length.
    replace (length (entriesOf s (currentBatchId s)) + 1)%nat
      with (S (length (entriesOf s (currentBatchId s)))) by lia.
    rewrite seq_S, fmap_app. reflexivity.
  - rewrite app_nil_r, IH. unfold entriesOf. storage_simpl.
    rewrite lookup_insert_ne by exact Hne. reflexivity.
Qed.

Lemma closedBatches_exec (s : Storage) (tx : Env * Call) (b : Z) :
  reachable s ->
  (b ∈ closedBatches (events s) <-> flag (isBatchClosed s) b = true) ->
  (b ∈ closedBatches (events (exec s tx)) <-> flag (isBatchClosed (exec s tx)) b = true).
Proof.
  intros Hs IH. destruct (reachable_ledger_invariant s Hs) as (_ & Hclosed & _).
  exec_cases tx; rewrite ?closedBatches_snoc, ?app_nil_r; try exact IH.
  - rewrite flag_insert. destruct (decide (currentBatchId s + 1 = b)) as [<-|Hne]; [|exact IH].
    rewrite IH. split; [|discriminate].
    intros Hb. specialize (Hclosed _ Hb). lia.
  - rewrite flag_insert, elem_of_app, list_elem_of_singleton, IH.
    destruct (decide (currentBatchId s = b)) as [<-|Hne].
    + split; auto.
    + split; [intros [Hb|Hb]; [exact Hb|congruence]|auto].
Qed.

(** X10. The event log mirrors the ledger in every reachable state: the
    [BatchOpened] events list the batch ids 1, 2, ..., [currentBatchId] in
    order; the [NFTSubmitted] events of a batch carry the indices 0, 1, 2,
    ... up to the number of its entries, in order; and a batch id occurs in
    a [BatchClosed] event exactly when its closed flag is set. *)
Theorem X10_event_log_mirrors_ledger (s : Storage) :
  reachable s ->
  openedBatches (events s) = Z.of_nat <$> seq 1 (Z.to_nat (currentBatchId s)) /\
  (forall b, submittedIndices b (events s)
             = Z.of_nat <$> seq 0 (length (entriesOf s b))) /\
  (forall b, b ∈ closedBatches (events s) <-> flag (isBatchClosed s) b = true).
Proof.
  induction 1 as [e|s tx Hs (IHo & IHs & IHc)].
  - rewrite deploy_eq. storage_simpl. split; [reflexivity|]. split; intros b.
    + reflexivity.
    + unfold flag. rewrite lookup_empty. simpl. split; [|discriminate].
      intros Hb. inversion Hb.
  - split; [apply openedBatches_exec; assumption|]. split; intros b.
    + apply submittedIndices_exec, IHs.
    + apply closedBatches_exec; [assumption|apply IHc].
Qed.

End Log.

(** * The contract on concrete transactions *)

#[local] Existing Instance mockPlatform.

Lemma reachable_genesis : reachable genesis.
Proof. apply reachable_deploy. Qed.

Lemma reachable_closedBatch : reachable closedBatch.
Proof. apply reachable_execAll, reachable_genesis. Qed.

Lemma reachable_requestedByCarol : reachable requestedByCarol.
Proof. apply reachable_exec, reachable_closedBatch. Qed.

(** C1. The cooldown gate of [requestPortfolioValuation] reads
    [lastSubmissionTime], not [lastDecryptionRequestTime].  With a cooldown
    of 60 seconds: Carol, whose previous decryption request was made at time
    2000, is accepted again at time 2001; Bob, who never made a decryption
    request but submitted an entry at time 1000, is rejected with
    [CooldownActive] at time 1030. *)
Theorem C1_request_cooldown_reads_lastSubmissionTime :
  cooldownSeconds requestedByCarol = 60 /\
  word (lastDecryptionRequestTime requestedByCarol) carol = 2000 /\
  word (lastSubmissionTime requestedByCarol) carol = 0 /\
  requestPortfolioValuation (mkEnv carol 2001 8) 1 requestedByCarol = Ok (tt, requestedTwice) /\
  word (lastDecryptionRequestTime requestedTwice) carol = 2001 /\
  cooldownSeconds closedBatch = 60 /\
  word (lastDecryptionRequestTime closedBatch) bob = 0 /\
  word (lastSubmissionTime closedBatch) bob = 1000 /\
  requestPortfolioValuation (mkEnv bob 1030 8) 1 closedBatch = Revert CooldownActive.
Proof.
  split; [reflexivity|].
  split; [reflexivity|].
  split; [reflexivity|].
  split; [reflexivity|].
  split; [reflexivity|].
  split; [reflexivity|].
  split; [reflexivity|].
  split; [reflexivity|].
  reflexivity.
Qed.

Lemma C2_witness :
  requestPortfolioValuation (mkEnv carol 2000 7) 1 closedBatch = Ok (tt, requestedByCarol) /\
  entriesOf laterLedger 1 = entriesOf closedBatch 1 /\
  batchId (contextOf laterLedger 7) = batchId (contextOf requestedByCarol 7) /\
  stateHash (contextOf laterLedger 7) = stateHash (contextOf requestedByCarol 7) /\
  _hashCiphertexts [FHE_toBytes32 (spec_aggregate (entriesOf laterLedger 1))]
    = stateHash (contextOf laterLedger 7) /\
  myCallback (mkEnv 9 3000 0) 7 cleartext7 someProof laterLedger <> Revert StateMismatch.
Proof.
  assert (H1 : requestPortfolioValuation (mkEnv carol 2000 7) 1 closedBatch
               = Ok (tt, requestedByCarol)) by (reflexivity).
  assert (H2 : entriesOf laterLedger 1 = entriesOf closedBatch 1) by (reflexivity).
  assert (H3 : batchId (contextOf laterLedger 7) = batchId (contextOf requestedByCarol 7))
    by (reflexivity).
  assert (H4 : stateHash (contextOf laterLedger 7) = stateHash (contextOf requestedByCarol 7))
    by (reflexivity).
  pose proof (C2_commitment_rederived_at_finalize
                (mkEnv carol 2000 7) (mkEnv 9 3000 0) 1 closedBatch requestedByCarol
                laterLedger cleartext7 someProof H1 H2 H3 H4) as (_ & _ & _ & H5 & H6).
  exact (conj H1 (conj H2 (conj H3 (conj H4 (conj H5 H6))))).
Defined.

Lemma C3_witness :
  myCallback (mkEnv 9 3000 0) 7 cleartext7 someProof requestedByCarol = Ok (tt, finalized) /\
  Forall (oracle_keeps_fresh 7) laterTxs /\
  processed (contextOf finalized 7) = true /\
  myCallback (mkEnv carol 5000 0) 7 cleartext7 someProof (execAll finalized laterTxs)
    = Revert ReplayAttempt /\
  exec (execAll finalized laterTxs) (mkEnv carol 5000 0, Call_myCallback 7 cleartext7 someProof)
    = execAll finalized laterTxs.
Proof.
  assert (H1 : myCallback (mkEnv 9 3000 0) 7 cleartext7 someProof requestedByCarol
               = Ok (tt, finalized)) by (reflexivity).
  assert (H2 : Forall (oracle_keeps_fresh 7) laterTxs).
  { unfold laterTxs. repeat constructor. }
  pose proof (C3_replay_protection (mkEnv 9 3000 0) 7 cleartext7 someProof
                requestedByCarol finalized H1) as (_ & H3 & _ & H4).
  destruct (H4 laterTxs H2 (mkEnv carol 5000 0) cleartext7 someProof) as [H5 H6].
  exact (conj H1 (conj H2 (conj H3 (conj H5 H6)))).
Defined.

(** C4, as the claim states it, fails: right after deployment batch 1 is
    open, and the owner's [openNewBatch] succeeds and moves on to batch 2,
    leaving batch 1 open. *)
Lemma C4_openNewBatch_accepts_open_batch :
  msg_sender (mkEnv alice 10 0) = owner genesis /\
  paused genesis = false /\
  flag (isBatchClosed genesis) (currentBatchId genesis) = false /\
  openNewBatch (mkEnv alice 10 0) genesis = Ok (tt, bypassedBatch) /\
  currentBatchId bypassedBatch = 2 /\
  flag (isBatchClosed bypassedBatch) 1 = false.
Proof.
  split; [reflexivity|]. split; [reflexivity|]. split; [reflexivity|].
  split; [reflexivity|]. split; reflexivity.
Qed.

Lemma C4_witness :
  msg_sender (mkEnv alice 10 0) = owner genesis /\
  paused genesis = false /\
  currentBatchId genesis < MAX_UINT256 /\
  exists s',
    openNewBatch (mkEnv alice 10 0) genesis = Ok (tt, s') /\
    currentBatchId s' = currentBatchId genesis + 1 /\
    flag (isBatchClosed s') (currentBatchId s') = false /\
    (forall b, b <> currentBatchId genesis + 1 ->
       flag (isBatchClosed s') b = flag (isBatchClosed genesis) b) /\
    (forall txs, currentBatchId genesis < currentBatchId (execAll s' txs)).
Proof.
  assert (H1 : msg_sender (mkEnv alice 10 0) = owner genesis) by reflexivity.
  assert (H2 : paused genesis = false) by reflexivity.
  assert (H3 : currentBatchId genesis < MAX_UINT256) by reflexivity.
  exact (conj H1 (conj H2 (conj H3
    (C4_openNewBatch_ignores_closed_flag (mkEnv alice 10 0) genesis H1 H2 H3)))).
Defined.

Lemma C5_witness :
  flag (isProvider closedBatch) (msg_sender (mkEnv bob 2000 0)) = true /\
  paused closedBatch = false /\
  respectCooldown (mkEnv bob 2000 0) closedBatch = Ok (tt, closedBatch) /\
  FHE_isInitialized 6 = true /\
  FHE_isInitialized 2 = true /\
  flag (isBatchClosed closedBatch) (currentBatchId closedBatch) = true /\
  submitEncryptedNFT (mkEnv bob 2000 0) 6 2 closedBatch = Revert BatchNotClosed /\
  exec closedBatch (mkEnv bob 2000 0, Call_submitEncryptedNFT 6 2) = closedBatch.
Proof.
  assert (H1 : flag (isProvider closedBatch) (msg_sender (mkEnv bob 2000 0)) = true)
    by reflexivity.
  assert (H2 : paused closedBatch = false) by reflexivity.
  assert (H3 : respectCooldown (mkEnv bob 2000 0) closedBatch = Ok (tt, closedBatch))
    by reflexivity.
  assert (H4 : FHE_isInitialized 6 = true) by reflexivity.
  assert (H5 : FHE_isInitialized 2 = true) by reflexivity.
  assert (H6 : flag (isBatchClosed closedBatch) (currentBatchId closedBatch) = true)
    by reflexivity.
  pose proof (C5_submit_rejects_closed_batch (mkEnv bob 2000 0) 6 2 closedBatch
                H1 H2 H3 H4 H5) as (Hiff & Hsame & _).
  exact (conj H1 (conj H2 (conj H3 (conj H4 (conj H5 (conj H6
           (conj (proj2 Hiff H6) (Hsame H6)))))))).
Defined.

(** C6, as the claim states it, fails on the error: batch 1 is closed and is
    the current batch, yet [closeCurrentBatch] reverts with [NotOwner] for
    Bob, who is not the owner, and with [PausedError] for the owner once the
    contract is paused, not with [InvalidBatch]. *)
Lemma C6_close_on_closed_batch_other_errors :
  flag (isBatchClosed closedBatch) (currentBatchId closedBatch) = true /\
  closeCurrentBatch (mkEnv bob 2000 0) closedBatch = Revert NotOwner /\
  flag (isBatchClosed pausedClosed) (currentBatchId pausedClosed) = true /\
  closeCurrentBatch (mkEnv alice 2000 0) pausedClosed = Revert PausedError.
Proof.
  split; [reflexivity|]. split; [reflexivity|]. split; reflexivity.
Qed.

Lemma C6_witness :
  reachable closedBatch /\
  flag (isBatchClosed closedBatch) 1 = true /\
  currentBatchId closedBatch <= currentBatchId (execAll closedBatch closingAttempts) /\
  flag (isBatchClosed (execAll closedBatch closingAttempts)) 1 = true /\
  closeCurrentBatch (mkEnv alice 30 0) closedBatch = Revert InvalidBatch.
Proof.
  assert (H1 : flag (isBatchClosed closedBatch) 1 = true) by reflexivity.
  pose proof (C6_batch_lifecycle_monotone closedBatch reachable_closedBatch)
    as (_ & _ & _ & Hmono & Hclosed & _ & Hclose).
  exact (conj reachable_closedBatch (conj H1 (conj (Hmono closingAttempts)
           (conj (Hclosed closingAttempts 1 H1)
              (proj1 (Hclose (mkEnv alice 30 0) H1)))))).
Defined.

(** C7, as the claim states it, fails: while the contract is paused, Bob,
    who is neither the owner nor a provider, gets [NotOwner] from
    [openNewBatch] and [closeCurrentBatch] and [NotProvider] from
    [submitEncryptedNFT], not the paused error. *)
Lemma C7_paused_call_by_stranger :
  paused pausedGenesis = true /\
  openNewBatch (mkEnv bob 20 0) pausedGenesis = Revert NotOwner /\
  closeCurrentBatch (mkEnv bob 20 0) pausedGenesis = Revert NotOwner /\
  submitEncryptedNFT (mkEnv bob 20 0) 4 3 pausedGenesis = Revert NotProvider.
Proof.
  split; [reflexivity|]. split; [reflexivity|]. split; reflexivity.
Qed.

Lemma C7_witness :
  paused pausedGenesis = true /\
  openNewBatch (mkEnv alice 20 0) pausedGenesis = Revert PausedError /\
  closeCurrentBatch (mkEnv alice 20 0) pausedGenesis = Revert PausedError /\
  submitEncryptedNFT (mkEnv alice 20 0) 4 3 pausedGenesis = Revert NotProvider /\
  requestPortfolioValuation (mkEnv alice 20 0) 1 pausedGenesis = Revert PausedError /\
  exec pausedGenesis (mkEnv alice 20 0, Call_openNewBatch) = pausedGenesis /\
  exists s', addProvider (mkEnv alice 20 0) bob pausedGenesis = Ok (tt, s') /\
    flag (isProvider s') bob = true /\ paused s' = true.
Proof.
  assert (H1 : paused pausedGenesis = true) by reflexivity.
  pose proof (C7_pause_gating (mkEnv alice 20 0) pausedGenesis H1)
    as (Hopen & Hclose & Hsubmit & Hrequest & Hexec & _ & _ & _ & Hadmin).
  destruct (Hadmin eq_refl) as (_ & Hadd & _).
  exact (conj H1 (conj Hopen (conj Hclose (conj (Hsubmit 4 3) (conj (Hrequest 1)
           (conj Hexec (Hadd bob))))))).
Defined.

(** C8, as the claim states it, fails on its list of gates.  Under request
    id 99 no context is stored, so the replay check passes, and the proof
    verifies, yet [myCallback] reverts with [InvalidBatch].  Under request
    id 7 the context is unprocessed, the recomputed hash is the stored one
    and the proof verifies, yet with a cleartext of 31 bytes [myCallback]
    reverts in [abi.decode]. *)
Lemma C8_finalization_has_further_gates :
  processed (contextOf requestedByCarol 99) = false /\
  FHE_checkSignatures 99 cleartext7 someProof = true /\
  myCallback (mkEnv 9 3000 0) 99 cleartext7 someProof requestedByCarol
    = Revert InvalidBatch /\
  processed (contextOf requestedByCarol 7) = false /\
  _hashCiphertexts
    [FHE_toBytes32
       (spec_aggregate (entriesOf requestedByCarol (batchId (contextOf requestedByCarol 7))))]
    = stateHash (contextOf requestedByCarol 7) /\
  FHE_checkSignatures 7 shortCleartext someProof = true /\
  myCallback (mkEnv 9 3000 0) 7 shortCleartext someProof requestedByCarol
    = Revert AbiDecodeError.
Proof.
  split; [reflexivity|]. split; [reflexivity|]. split; [reflexivity|].
  split; [reflexivity|]. split; [reflexivity|]. split; reflexivity.
Qed.

Lemma C9_witness :
  reachable requestedByCarol /\
  decryptionContexts requestedByCarol !! 99 = None /\
  myCallback (mkEnv 9 3000 0) 99 cleartext7 someProof requestedByCarol = Revert InvalidBatch /\
  exec requestedByCarol (mkEnv 9 3000 0, Call_myCallback 99 cleartext7 someProof)
    = requestedByCarol.
Proof.
  assert (H1 : decryptionContexts requestedByCarol !! 99 = None) by reflexivity.
  pose proof (C9_unregistered_request_aborts requestedByCarol (mkEnv 9 3000 0) 99
                cleartext7 someProof reachable_requestedByCarol H1)
    as (_ & _ & _ & Hrev & Hsame).
  exact (conj reachable_requestedByCarol (conj H1 (conj Hrev Hsame))).
Defined.

(** C10, as the claim states it, fails on the error: batch 1 was bypassed
    and is open, yet a valuation request on it reverts with [PausedError]
    while the contract is paused, and with [CooldownActive] for Bob thirty
    seconds after his submission into batch 2. *)
Lemma C10_request_on_bypassed_batch_other_errors :
  1 < currentBatchId pausedBypassed /\
  flag (isBatchClosed pausedBypassed) 1 = false /\
  requestPortfolioValuation (mkEnv carol 2000 7) 1 pausedBypassed = Revert PausedError /\
  1 < currentBatchId bypassedWithSubmission /\
  flag (isBatchClosed bypassedWithSubmission) 1 = false /\
  paused bypassedWithSubmission = false /\
  requestPortfolioValuation (mkEnv bob 1030 7) 1 bypassedWithSubmission = Revert CooldownActive.
Proof.
  split; [reflexivity|]. split; [reflexivity|]. split; [reflexivity|].
  split; [reflexivity|]. split; [reflexivity|]. split; reflexivity.
Qed.

Lemma C10_witness :
  1 < currentBatchId bypassedBatch /\
  flag (isBatchClosed bypassedBatch) 1 = false /\
  1 < currentBatchId (execAll bypassedBatch closingAttempts) /\
  flag (isBatchClosed (execAll bypassedBatch closingAttempts)) 1 = false /\
  paused (execAll bypassedBatch closingAttempts) = false /\
  requestPortfolioValuation (mkEnv carol 2000 7) 1 (execAll bypassedBatch closingAttempts)
    = Revert InvalidBatch.
Proof.
  assert (H1 : 1 < currentBatchId bypassedBatch) by reflexivity.
  assert (H2 : flag (isBatchClosed bypassedBatch) 1 = false) by reflexivity.
  assert (H3 : paused (execAll bypassedBatch closingAttempts) = false) by reflexivity.
  pose proof (C10_bypassed_batch_stays_open bypassedBatch 1 closingAttempts
                (mkEnv carol 2000 7) H1 H2) as (Hbelow & Hopen & _ & _ & Hinvalid).
  exact (conj H1 (conj H2 (conj Hbelow (conj Hopen (conj H3 (Hinvalid H3 eq_refl)))))).
Defined.

(** ** Further runs *)

Lemma X1_witness :
  ownerOnly (Call_setCooldownSeconds 0) = true /\
  msg_sender (mkEnv bob 20 0) <> owner closedBatch /\
  run (mkEnv bob 20 0) (Call_setCooldownSeconds 0) closedBatch = Revert NotOwner /\
  exec closedBatch (mkEnv bob 20 0, Call_setCooldownSeconds 0) = closedBatch.
Proof.
  assert (H1 : ownerOnly (Call_setCooldownSeconds 0) = true) by reflexivity.
  assert (H2 : msg_sender (mkEnv bob 20 0) <> owner closedBatch)
    by (apply Z.eqb_neq; reflexivity).
  exact (conj H1 (conj H2
    (X1_owner_functions_reject_other_callers (mkEnv bob 20 0) (Call_setCooldownSeconds 0)
       closedBatch H1 H2))).
Defined.

Lemma X2_witness :
  msg_sender (mkEnv carol 20 0) <> owner closedBatch /\
  flag (isProvider closedBatch) (msg_sender (mkEnv carol 20 0)) = false /\
  owner (exec closedBatch (mkEnv carol 20 0, Call_transferOwnership carol)) = owner closedBatch /\
  paused (exec closedBatch (mkEnv carol 20 0, Call_setPaused true)) = paused closedBatch /\
  portfolioEntries (exec closedBatch (mkEnv carol 2000 7, Call_requestPortfolioValuation 1))
    = portfolioEntries closedBatch.
Proof.
  assert (H1 : msg_sender (mkEnv carol 20 0) <> owner closedBatch)
    by (apply Z.eqb_neq; reflexivity).
  assert (H2 : flag (isProvider closedBatch) (msg_sender (mkEnv carol 20 0)) = false)
    by reflexivity.
  exact (conj H1 (conj H2
    (conj (proj1 (X2_stranger_cannot_change_ledger (mkEnv carol 20 0)
                    (Call_transferOwnership carol) closedBatch H1 H2))
    (conj (proj1 (proj2 (proj2 (X2_stranger_cannot_change_ledger (mkEnv carol 20 0)
                    (Call_setPaused true) closedBatch H1 H2))))
          (proj2 (proj2 (proj2 (proj2 (proj2 (proj2 (proj2
             (X2_stranger_cannot_change_ledger (mkEnv carol 2000 7)
                (Call_requestPortfolioValuation 1) closedBatch H1 H2)))))))))))).
Defined.

Lemma X3_witness :
  msg_sender (mkEnv alice 1100 0) = owner closedBatch /\
  exists s',
    transferOwnership (mkEnv alice 1100 0) carol closedBatch = Ok (tt, s') /\
    owner s' = carol /\
    (forall e' c, ownerOnly c = true -> msg_sender e' <> carol ->
       run e' c s' = Revert NotOwner) /\
    (forall e' b, msg_sender e' = carol ->
       exists s'', setPaused e' b s' = Ok (tt, s'') /\ paused s'' = b /\ owner s'' = carol) /\
    (forall e' c, ownerOnly c = true -> msg_sender e' = carol ->
       run e' c s' <> Revert NotOwner /\
       (c <> Call_openNewBatch -> c <> Call_closeCurrentBatch ->
        exists s'', run e' c s' = Ok (tt, s''))).
Proof.
  assert (H1 : msg_sender (mkEnv alice 1100 0) = owner closedBatch) by reflexivity.
  exact (conj H1 (X3_ownership_handover (mkEnv alice 1100 0) carol closedBatch H1)).
Defined.

Lemma X4_witness :
  msg_sender (mkEnv alice 10 0) = owner genesis /\
  exists s1,
    addProvider (mkEnv alice 10 0) bob genesis = Ok (tt, s1) /\
    flag (isProvider s1) bob = true /\
    (forall q, q <> bob -> flag (isProvider s1) q = flag (isProvider genesis) q) /\
    exists s2,
      removeProvider (mkEnv alice 10 0) bob s1 = Ok (tt, s2) /\
      flag (isProvider s2) bob = false /\
      (forall q, q <> bob -> flag (isProvider s2) q = flag (isProvider genesis) q) /\
      (forall e' v w, msg_sender e' = bob ->
         submitEncryptedNFT e' v w s2 = Revert NotProvider).
Proof.
  assert (H1 : msg_sender (mkEnv alice 10 0) = owner genesis) by reflexivity.
  exact (conj H1 (proj2 (X4_provider_registry (mkEnv alice 10 0) bob genesis H1))).
Defined.

Lemma X6_witness :
  submitEncryptedNFT (mkEnv bob 1000 0) 4 3 withProvider = Ok (tt, firstSubmission) /\
  msg_sender (mkEnv bob 1030 0) = msg_sender (mkEnv bob 1000 0) /\
  block_timestamp (mkEnv bob 1000 0) + cooldownSeconds withProvider <= MAX_UINT256 /\
  block_timestamp (mkEnv bob 1030 0)
    < block_timestamp (mkEnv bob 1000 0) + cooldownSeconds withProvider /\
  word (lastSubmissionTime firstSubmission) bob = 1000 /\
  submitEncryptedNFT (mkEnv bob 1030 0) 6 2 firstSubmission = Revert CooldownActive /\
  requestPortfolioValuation (mkEnv bob 1030 0) 1 firstSubmission = Revert CooldownActive.
Proof.
  assert (H1 : submitEncryptedNFT (mkEnv bob 1000 0) 4 3 withProvider
               = Ok (tt, firstSubmission)) by reflexivity.
  assert (H2 : msg_sender (mkEnv bob 1030 0) = msg_sender (mkEnv bob 1000 0)) by reflexivity.
  assert (H3 : block_timestamp (mkEnv bob 1000 0) + cooldownSeconds withProvider
               <= MAX_UINT256) by (apply Z.leb_le; reflexivity).
  assert (H4 : block_timestamp (mkEnv bob 1030 0)
               < block_timestamp (mkEnv bob 1000 0) + cooldownSeconds withProvider)
    by reflexivity.
  pose proof (X6_submission_cooldown_window (mkEnv bob 1000 0) (mkEnv bob 1030 0)
                4 3 6 2 withProvider firstSubmission H1 H2 H3) as (H5 & _ & H6 & _).
  destruct (H6 H4) as [H7 H8].
  exact (conj H1 (conj H2 (conj H3 (conj H4 (conj H5 (conj H7 (H8 1))))))).
Defined.

Lemma X7_witness :
  paused hugeCooldown = false /\
  MAX_UINT256 < word (lastSubmissionTime hugeCooldown) (msg_sender (mkEnv bob 2000 0))
                + cooldownSeconds hugeCooldown /\
  flag (isProvider hugeCooldown) (msg_sender (mkEnv bob 2000 0)) = true /\
  requestPortfolioValuation (mkEnv bob 2000 0) 1 hugeCooldown = Revert (Panic 17) /\
  submitEncryptedNFT (mkEnv bob 2000 0) 6 2 hugeCooldown = Revert (Panic 17).
Proof.
  assert (H1 : paused hugeCooldown = false) by reflexivity.
  assert (H2 : MAX_UINT256
               < word (lastSubmissionTime hugeCooldown) (msg_sender (mkEnv bob 2000 0))
                 + cooldownSeconds hugeCooldown) by reflexivity.
  assert (H3 : flag (isProvider hugeCooldown) (msg_sender (mkEnv bob 2000 0)) = true)
    by reflexivity.
  pose proof (X7_cooldown_overflow_panics (mkEnv bob 2000 0) hugeCooldown H1 H2)
    as [H4 H5].
  exact (conj H1 (conj H2 (conj H3 (conj (H4 1) (H5 H3 6 2))))).
Defined.

Lemma X8_witness :
  reachable requestedByCarol /\
  decryptionContexts requestedByCarol !! 7
    = Some (mkDecryptionContext 1 (stateHash (contextOf requestedByCarol 7)) false) /\
  myCallback (mkEnv 9 3000 0) 7 cleartext7 someProof requestedByCarol <> Revert StateMismatch /\
  myCallback (mkEnv 9 3000 0) 7 cleartext7 someProof requestedByCarol <> Revert InvalidBatch.
Proof.
  assert (H1 : decryptionContexts requestedByCarol !! 7
               = Some (mkDecryptionContext 1 (stateHash (contextOf requestedByCarol 7)) false))
    by reflexivity.
  pose proof (X8_state_hash_check_never_fails requestedByCarol (mkEnv 9 3000 0) 7
                cleartext7 someProof reachable_requestedByCarol) as [H2 H3].
  destruct (H3 _ H1) as (_ & H4 & _).
  exact (conj reachable_requestedByCarol (conj H1 (conj H2 H4))).
Defined.

Lemma X9_witness :
  (forall n, mockDecrypt (FHE_asEuint32 n) = n mod 2 ^ 32) /\
  (forall a c, mockDecrypt (FHE_add a c) = (mockDecrypt a + mockDecrypt c) mod 2 ^ 32) /\
  (forall a c, mockDecrypt (FHE_mul a c) = (mockDecrypt a * mockDecrypt c) mod 2 ^ 32) /\
  requestPortfolioValuation (mkEnv carol 2000 7) 1 closedBatch = Ok (tt, requestedByCarol) /\
  exists total,
    for_range 0 (length (entriesOf closedBatch 1)) (accumulate 1) (FHE_asEuint32 0) closedBatch
      = Ok (total, closedBatch) /\
    stateHash (contextOf requestedByCarol (oracle_requestId (mkEnv carol 2000 7)))
      = _hashCiphertexts [FHE_toBytes32 total] /\
    mockDecrypt total = weightedSum mockDecrypt (entriesOf closedBatch 1) mod 2 ^ 32.
Proof.
  assert (H1 : forall n, mockDecrypt (FHE_asEuint32 n) = n mod 2 ^ 32)
    by (intros n; apply Z.add_simpl_r).
  assert (H2 : forall a c,
             mockDecrypt (FHE_add a c) = (mockDecrypt a + mockDecrypt c) mod 2 ^ 32)
    by (intros a c; apply Z.add_simpl_r).
  assert (H3 : forall a c,
             mockDecrypt (FHE_mul a c) = (mockDecrypt a * mockDecrypt c) mod 2 ^ 32)
    by (intros a c; apply Z.add_simpl_r).
  assert (H4 : requestPortfolioValuation (mkEnv carol 2000 7) 1 closedBatch
               = Ok (tt, requestedByCarol)) by reflexivity.
  exact (conj H1 (conj H2 (conj H3 (conj H4
    (X9_aggregate_decrypts_to_weighted_sum mockDecrypt (mkEnv carol 2000 7) 1
       closedBatch requestedByCarol H1 H2 H3 H4))))).
Defined.

Lemma X10_witness :
  reachable requestedByCarol /\
  openedBatches (events requestedByCarol)
    = Z.of_nat <$> seq 1 (Z.to_nat (currentBatchId requestedByCarol)) /\
  (forall b, submittedIndices b (events requestedByCarol)
             = Z.of_nat <$> seq 0 (length (entriesOf requestedByCarol b))) /\
  (forall b, b ∈ closedBatches (events requestedByCarol)
             <-> flag (isBatchClosed requestedByCarol) b = true).
Proof.
  exact (conj reachable_requestedByCarol
    (X10_event_log_mirrors_ledger requestedByCarol reachable_requestedByCarol)).
Defined.

Lemma X13_witness :
  reachable genesis /\
  openNewBatch (mkEnv alice 10 0) genesis = Ok (tt, bypassedBatch) /\
  currentBatchId bypassedBatch = currentBatchId genesis + 1 /\
  flag (isBatchClosed bypassedBatch) (currentBatchId bypassedBatch) = false /\
  entriesOf bypassedBatch (currentBatchId bypassedBatch) = [] /\
  (forall rid ctx, decryptionContexts bypassedBatch !! rid = Some ctx ->
     batchId ctx <> currentBatchId bypassedBatch).
Proof.
  assert (H1 : openNewBatch (mkEnv alice 10 0) genesis = Ok (tt, bypassedBatch))
    by reflexivity.
  exact (conj reachable_genesis (conj H1
    (X13_new_batch_is_empty_and_open (mkEnv alice 10 0) genesis bypassedBatch
       reachable_genesis H1))).
Defined.

Lemma X14_witness :
  reachable closedEmpty /\
  flag (isBatchClosed closedEmpty) 1 = true /\
  entriesOf closedEmpty 1 = [] /\
  entriesOf (execAll closedEmpty closingAttempts) 1 = [] /\
  paused (execAll closedEmpty closingAttempts) = false /\
  requestPortfolioValuation (mkEnv carol 2000 7) 1 (execAll closedEmpty closingAttempts)
    = Revert InvalidBatch.
Proof.
  assert (H0 : reachable closedEmpty) by (apply reachable_exec, reachable_genesis).
  assert (H1 : flag (isBatchClosed closedEmpty) 1 = true) by reflexivity.
  assert (H2 : entriesOf closedEmpty 1 = []) by reflexivity.
  assert (H3 : paused (execAll closedEmpty closingAttempts) = false) by reflexivity.
  pose proof (X14_closed_empty_batch_never_valued closedEmpty 1 closingAttempts
                (mkEnv carol 2000 7) H0 H1 H2) as (H4 & _ & _ & H5).
  exact (conj H0 (conj H1 (conj H2 (conj H4 (conj H3 (H5 H3 eq_refl)))))).
Defined.
